(** * Workflow-timing metrics of app/metrics.py

    A shallow embedding of the metrics engine of the Jira productivity
    service (app/metrics.py) and the properties its specification states.

    Modelling conventions.
    - Python [str] is [string]; comparison of two [str] is the code-point
      lexicographic order, which on UTF-8 text is the byte order
      [String.compare].  [str.strip] and [str.lower] are modelled on ASCII
      text.
    - Python [float] durations are exact rationals [Q]; results are compared
      with [==].  Rounding error of binary floating point is outside the
      model.
    - The JSON objects handed over by the Jira client are records.  A key
      read with [d["k"]] is a field of the record, a key read with
      [d.get("k", default)] that is absent is the default, and a JSON
      [null] status name is [None].
    - An exception is the [Err] result of the [result] type.
    - [datetime.now()] is a parameter of the function that reads it.
    - The library functions [strptime], [strftime], [isocalendar] and the
      subtraction and comparison of aware datetimes are modelled in the
      module [Datetime], after the pure-Python implementation of the
      standard library. *)

From stdpp Require Import gmap strings list fin_maps sorting.
From Stdlib Require Import ZArith QArith Qround Lia Lqa Ascii String.
From Stdlib Require Import DecimalString Sorting.Sorted Permutation OrderedTypeEx.

Local Open Scope Z_scope.

(** ** Exceptions *)

Inductive exn := ValueError | ZeroDivisionError.

Inductive result (A : Type) :=
| Ok (a : A)
| Err (e : exn).
Arguments Ok {A} a.
Arguments Err {A} e.

(* Sequencing: the first exception raised ends the computation.  With the
   instances below, [x ← r; k] is the notation for it. *)
#[global] Instance result_ret : MRet result := fun A a => Ok a.
#[global] Instance result_bind : MBind result := fun A B k r =>
  match r with
  | Ok a => k a
  | Err e => Err e
  end.

(** ** Python strings *)

Module PyStr.

(* str.isspace on the ASCII range: TAB..CR, FS..US and SPACE. *)
Definition isspace (c : ascii) : bool :=
  let n := Z.of_nat (nat_of_ascii c) in
  ((9 <=? n) && (n <=? 13)) || ((28 <=? n) && (n <=? 32)).

Fixpoint lstrip (s : string) : string :=
  match s with
  | EmptyString => EmptyString
  | String c s' => if isspace c then lstrip s' else s
  end.

Fixpoint rstrip (s : string) : string :=
  match s with
  | EmptyString => EmptyString
  | String c s' =>
      match rstrip s' with
      | EmptyString => if isspace c then EmptyString else String c EmptyString
      | r => String c r
      end
  end.

Definition strip (s : string) : string := rstrip (lstrip s).

Definition lower_char (c : ascii) : ascii :=
  let n := nat_of_ascii c in
  if ((65 <=? n) && (n <=? 90))%nat then ascii_of_nat (n + 32) else c.

Fixpoint lower (s : string) : string :=
  match s with
  | EmptyString => EmptyString
  | String c s' => String (lower_char c) (lower s')
  end.

(* s1 == s2 where either side may be None. *)
Definition eqb_opt (a : option string) (b : string) : bool :=
  match a with
  | Some s => String.eqb s b
  | None => false
  end.

Definition is_digit (c : ascii) : bool :=
  let n := nat_of_ascii c in ((48 <=? n) && (n <=? 57))%nat.

Definition digit_val (c : ascii) : Z := Z.of_nat (nat_of_ascii c) - 48.

(* str(n) for an int n. *)
Definition of_int (n : Z) : string := NilZero.string_of_int (Z.to_int n).

Fixpoint zeros (n : nat) : string :=
  match n with
  | O => EmptyString
  | S n' => String "0" (zeros n')
  end.

(* format(n, "0wd") for n >= 0. *)
Definition zfill (w : nat) (n : Z) : string :=
  let s := of_int n in
  String.append (zeros (w - String.length s)) s.

End PyStr.

(** ** The datetime library *)

Module Datetime.

Record datetime := mk_datetime {
  year : Z;
  month : Z;
  day : Z;
  hour : Z;
  minute : Z;
  second : Z;
  microsecond : Z;
  (* seconds east of UTC; None for a naive datetime *)
  utcoffset : option Z
}.

Definition is_leap (y : Z) : bool :=
  (y mod 4 =? 0) && (negb (y mod 100 =? 0) || (y mod 400 =? 0)).

Definition days_before_year (y0 : Z) : Z :=
  let y := y0 - 1 in y * 365 + y / 4 - y / 100 + y / 400.

Definition DAYS_IN_MONTH : list Z :=
  [31; 28; 31; 30; 31; 30; 31; 31; 30; 31; 30; 31].

Definition days_in_month (y m : Z) : Z :=
  if (m =? 2) && is_leap y then 29
  else nth (Z.to_nat (m - 1)) DAYS_IN_MONTH 0.

Definition DAYS_BEFORE_MONTH : list Z :=
  [0; 31; 59; 90; 120; 151; 181; 212; 243; 273; 304; 334].

Definition days_before_month (y m : Z) : Z :=
  nth (Z.to_nat (m - 1)) DAYS_BEFORE_MONTH 0
  + (if (2 <? m) && is_leap y then 1 else 0).

Definition ymd2ord (y m d : Z) : Z :=
  days_before_year y + days_before_month y m + d.

Definition toordinal (dt : datetime) : Z :=
  ymd2ord (year dt) (month dt) (day dt).

(* Microseconds of the wall-clock reading since ordinal 0. *)
Definition local_micros (dt : datetime) : Z :=
  (((toordinal dt * 24 + hour dt) * 60 + minute dt) * 60 + second dt)
  * 1000000 + microsecond dt.

(* The instant on the UTC time line, in microseconds. *)
Definition instant (dt : datetime) : Z :=
  local_micros dt
  - 1000000 * (match utcoffset dt with Some o => o | None => 0 end).

(* a - b: a timedelta, held in microseconds. *)
Definition sub (a b : datetime) : Z := instant a - instant b.

(* timedelta.total_seconds() *)
Definition total_seconds (td : Z) : Q := td # 1000000.

(* a < b and a > b on aware datetimes *)
Definition ltb (a b : datetime) : bool := instant a <? instant b.
Definition gtb (a b : datetime) : bool := instant b <? instant a.

(** *** isocalendar *)

Definition isoweek1monday (y : Z) : Z :=
  let firstday := ymd2ord y 1 1 in
  let firstweekday := (firstday + 6) mod 7 in
  let week1monday := firstday - firstweekday in
  if 3 <? firstweekday then week1monday + 7 else week1monday.

Definition isocalendar (dt : datetime) : Z * Z * Z :=
  let y := year dt in
  let today := toordinal dt in
  let week1monday := isoweek1monday y in
  let week := (today - week1monday) / 7 in
  let wday := (today - week1monday) mod 7 in
  if week <? 0 then
    let y' := y - 1 in
    let w1 := isoweek1monday y' in
    (y', (today - w1) / 7 + 1, (today - w1) mod 7 + 1)
  else if (52 <=? week) && (isoweek1monday (y + 1) <=? today) then
    (y + 1, 1, wday + 1)
  else (y, week + 1, wday + 1).

(** *** Format strings *)

Inductive directive :=
| DY | Dm | Dd | DH | DM | DS | Df | Dz
| Lit (c : ascii).

Fixpoint directives (fmt : string) : option (list directive) :=
  match fmt with
  | EmptyString => Some []
  | String "%" (String c rest) =>
      d ← (if Ascii.eqb c "Y" then Some DY
           else if Ascii.eqb c "m" then Some Dm
           else if Ascii.eqb c "d" then Some Dd
           else if Ascii.eqb c "H" then Some DH
           else if Ascii.eqb c "M" then Some DM
           else if Ascii.eqb c "S" then Some DS
           else if Ascii.eqb c "f" then Some Df
           else if Ascii.eqb c "z" then Some Dz
           else None);
      ds ← directives rest;
      Some (d :: ds)
  | String c rest => ds ← directives rest; Some (Lit c :: ds)
  end.

(** *** strftime *)

Definition format_directive (dt : datetime) (d : directive) : string :=
  match d with
  | DY => PyStr.zfill 4 (year dt)
  | Dm => PyStr.zfill 2 (month dt)
  | Dd => PyStr.zfill 2 (day dt)
  | DH => PyStr.zfill 2 (hour dt)
  | DM => PyStr.zfill 2 (minute dt)
  | DS => PyStr.zfill 2 (second dt)
  | Df => PyStr.zfill 6 (microsecond dt)
  | Dz =>
      match utcoffset dt with
      | None => EmptyString
      | Some o =>
          let a := Z.abs o in
          String.append (if o <? 0 then "-" else "+")
            (String.append (PyStr.zfill 2 (a / 3600))
                           (PyStr.zfill 2 (a mod 3600 / 60)))
      end
  | Lit c => String c EmptyString
  end.

Definition strftime (dt : datetime) (fmt : string) : string :=
  match directives fmt with
  | Some ds => String.concat "" (map (format_directive dt) ds)
  | None => EmptyString
  end.

(** *** strptime

    Every numeric directive reads its full width (four digits for %Y, two
    for %m %d %H %M %S, one to six for %f, sign and four digits for %z);
    the shorter spellings that the library also tolerates are not part of
    the model and count as a mismatch. *)

Fixpoint take_digits (n : nat) (acc : Z) (s : string) : option (Z * string) :=
  match n with
  | O => Some (acc, s)
  | S n' =>
      match s with
      | String c s' =>
          if PyStr.is_digit c
          then take_digits n' (acc * 10 + PyStr.digit_val c) s'
          else None
      | EmptyString => None
      end
  end.

(* Up to [n] further digits of a fraction; the value is padded on the right
   to the full width. *)
Fixpoint take_fraction (n : nat) (acc : Z) (s : string) : Z * string :=
  match n with
  | O => (acc, s)
  | S n' =>
      match s with
      | String c s' =>
          if PyStr.is_digit c
          then take_fraction n' (acc * 10 + PyStr.digit_val c) s'
          else (acc * 10 ^ Z.of_nat n, s)
      | EmptyString => (acc * 10 ^ Z.of_nat n, s)
      end
  end.

Definition in_range (lo hi v : Z) : bool := (lo <=? v) && (v <=? hi).

Definition parse_directive (d : directive) (dt : datetime) (s : string)
  : option (datetime * string) :=
  let set (lo hi : Z) (n : nat) (upd : Z -> datetime) :=
    '(v, s') ← take_digits n 0 s;
    if in_range lo hi v then Some (upd v, s') else None in
  match d with
  | DY => set 0 9999 4%nat (fun v =>
            mk_datetime v (month dt) (day dt) (hour dt) (minute dt)
                        (second dt) (microsecond dt) (utcoffset dt))
  | Dm => set 1 12 2%nat (fun v =>
            mk_datetime (year dt) v (day dt) (hour dt) (minute dt)
                        (second dt) (microsecond dt) (utcoffset dt))
  | Dd => set 1 31 2%nat (fun v =>
            mk_datetime (year dt) (month dt) v (hour dt) (minute dt)
                        (second dt) (microsecond dt) (utcoffset dt))
  | DH => set 0 23 2%nat (fun v =>
            mk_datetime (year dt) (month dt) (day dt) v (minute dt)
                        (second dt) (microsecond dt) (utcoffset dt))
  | DM => set 0 59 2%nat (fun v =>
            mk_datetime (year dt) (month dt) (day dt) (hour dt) v
                        (second dt) (microsecond dt) (utcoffset dt))
  | DS => set 0 61 2%nat (fun v =>
            mk_datetime (year dt) (month dt) (day dt) (hour dt) (minute dt)
                        v (microsecond dt) (utcoffset dt))
  | Df =>
      match s with
      | String c s' =>
          if PyStr.is_digit c then
            let '(v, rest) := take_fraction 5 (PyStr.digit_val c) s' in
            Some (mk_datetime (year dt) (month dt) (day dt) (hour dt)
                    (minute dt) (second dt) v (utcoffset dt), rest)
          else None
      | EmptyString => None
      end
  | Dz =>
      match s with
      | String c s' =>
          sign ← (if Ascii.eqb c "+" then Some 1
                  else if Ascii.eqb c "-" then Some (-1) else None);
          '(hh, s1) ← take_digits 2 0 s';
          '(mm, s2) ← take_digits 2 0 s1;
          if in_range 0 59 mm then
            Some (mk_datetime (year dt) (month dt) (day dt) (hour dt)
                    (minute dt) (second dt) (microsecond dt)
                    (Some (sign * (hh * 3600 + mm * 60))), s2)
          else None
      | EmptyString => None
      end
  | Lit c =>
      match s with
      | String c' s' => if Ascii.eqb c c' then Some (dt, s') else None
      | EmptyString => None
      end
  end.

Fixpoint parse_directives (ds : list directive) (dt : datetime) (s : string)
  : option datetime :=
  match ds with
  | [] => match s with EmptyString => Some dt | _ => None end
  | d :: ds' =>
      '(dt', s') ← parse_directive d dt s;
      parse_directives ds' dt' s'
  end.

(* The checks of the datetime constructor and of the timezone class. *)
Definition valid (dt : datetime) : bool :=
  in_range 1 9999 (year dt)
  && in_range 1 (days_in_month (year dt) (month dt)) (day dt)
  && in_range 0 59 (second dt)
  && match utcoffset dt with
     | Some o => (-86400 <? o) && (o <? 86400)
     | None => true
     end.

Definition strptime (s fmt : string) : result datetime :=
  match directives fmt with
  | Some ds =>
      match parse_directives ds (mk_datetime 1900 1 1 0 0 0 0 None) s with
      | Some dt => if valid dt then Ok dt else Err ValueError
      | None => Err ValueError
      end
  | None => Err ValueError
  end.

End Datetime.

Export Datetime(datetime, mk_datetime).

(** ** The built-ins [sorted], [sum], [round] and true division *)

Section sorted.
Context {A K : Type} (lt : K -> K -> bool) (key : A -> K).

(* [x] precedes every element already placed whose key is not smaller:
   entries with equal keys keep the order of the input. *)
Fixpoint insert_by (x : A) (l : list A) : list A :=
  match l with
  | [] => [x]
  | y :: l' => if lt (key y) (key x) then y :: insert_by x l' else x :: l
  end.

Definition sorted_by (l : list A) : list A := foldr insert_by [] l.

(* [a] may stand before [b]: the key of [b] is not the smaller one. *)
Definition key_le (a b : A) : Prop := lt (key b) (key a) = false.
End sorted.

(* sorted(l, key=key) with keys of type str *)
Definition sorted {A} (key : A -> string) (l : list A) : list A :=
  sorted_by String.ltb key l.

(* sum(l) *)
Definition py_sum (l : list Q) : Q := foldl Qplus 0%Q l.

Definition py_div (a b : Q) : result Q :=
  if Qeq_bool b 0 then Err ZeroDivisionError else Ok (a / b)%Q.

(* The integer nearest to [q], a tie going to the even neighbour. *)
Definition round_half_even (q : Q) : Z :=
  let f := Qfloor q in
  match (q - inject_Z f ?= 1 # 2)%Q with
  | Lt => f
  | Gt => f + 1
  | Eq => if Z.even f then f else f + 1
  end.

(* round(q, 2) *)
Definition round2 (q : Q) : Q := (round_half_even (q * 100) # 100)%Q.

(** ** The issue records supplied by the Jira client *)

Record Item := {
  field : string;
  fromString : option string;
  toString : option string
}.

Record History := {
  created : string;
  items : list Item
}.

Record Issue := {
  key : string;
  fields_created : string;       (* issue["fields"]["created"] *)
  histories : list History       (* issue["changelog"]["histories"] *)
}.

(** ** app/metrics.py *)

Definition parse_jira_datetime (date_str : string) : result datetime :=
  Datetime.strptime date_str "%Y-%m-%dT%H:%M:%S.%f%z".

(** The loop shared by [calculate_time_in_progress] and
    [calculate_time_in_review]: the two bodies differ in the test
    [is_target] applied to the status names and in nothing else.  The state
    is the pair of the variables [in_progress_start] / [in_review_start] and
    [total_time_seconds]. *)

Definition acc_state : Type := option datetime * Q.

(* The tail of both functions: an interval still open is closed at [now]. *)
Definition close_interval (now : datetime) (st : acc_state) : Q :=
  match fst st with
  | Some s => (snd st + Datetime.total_seconds (Datetime.sub now s))%Q
  | None => snd st
  end.

Section accumulator.
Variable is_target : option string -> bool.

Definition acc_item (history_created : datetime) (st : acc_state)
    (item : Item) : acc_state :=
  let '(start, total_time_seconds) := st in
  if negb (String.eqb (field item) "status") then st
  else if is_target (toString item) then
    match start with
    | None => (Some history_created, total_time_seconds)
    | Some _ => st
    end
  else if is_target (fromString item) then
    match start with
    | Some s =>
        let elapsed :=
          Datetime.total_seconds (Datetime.sub history_created s) in
        (None, (total_time_seconds + elapsed)%Q)
    | None => st
    end
  else st.

Fixpoint acc_histories (hs : list History) (st : acc_state)
    : result acc_state :=
  match hs with
  | [] => Ok st
  | history :: hs' =>
      history_created ← parse_jira_datetime (created history);
      acc_histories hs' (foldl (acc_item history_created) st (items history))
  end.

(* The accumulated seconds, the still-open interval closed at [now]. *)
Definition acc_total (now : datetime) (changelog : Issue) : result Q :=
  st ← acc_histories (sorted created (histories changelog)) (None, 0%Q);
  Ok (close_interval now st).
End accumulator.

Definition is_in_progress (status : option string) : bool :=
  PyStr.eqb_opt status "In Progress".

Definition calculate_time_in_progress (now : datetime) (changelog : Issue)
    : result Q :=
  total_time_seconds ← acc_total is_in_progress now changelog;
  Ok (total_time_seconds / 3600)%Q.

Definition is_in_review (status : option string) : bool :=
  match status with
  | None => false
  | Some s =>
      negb (String.eqb s "")
      && String.eqb (PyStr.lower (PyStr.strip s)) "in review"
  end.

Definition calculate_time_in_review (now : datetime) (changelog : Issue)
    : result Q :=
  total_time_seconds ← acc_total is_in_review now changelog;
  if Qle_bool 3600 total_time_seconds
  then Ok (total_time_seconds / 3600)%Q
  else Ok (total_time_seconds / 60)%Q.

Definition is_done_item (item : Item) : bool :=
  String.eqb (field item) "status" && PyStr.eqb_opt (toString item) "Done".

(* The inner loop of [calculate_lead_time]: [done_date] is assigned at the
   first matching item and the loop is left. *)
Fixpoint lead_time_items (history : History) (its : list Item)
    (done_date : option datetime) : result (option datetime) :=
  match its with
  | [] => Ok done_date
  | item :: its' =>
      if is_done_item item then
        d ← parse_jira_datetime (created history); Ok (Some d)
      else lead_time_items history its' done_date
  end.

Fixpoint lead_time_histories (hs : list History)
    (done_date : option datetime) : result (option datetime) :=
  match hs with
  | [] => Ok done_date
  | history :: hs' =>
      done_date' ← lead_time_items history (items history) done_date;
      match done_date' with
      | Some _ => Ok done_date'
      | None => lead_time_histories hs' done_date'
      end
  end.

Definition calculate_lead_time (issue : Issue) : result (option Q) :=
  created_date ← parse_jira_datetime (fields_created issue);
  done_date ← lead_time_histories (histories issue) None;
  match done_date with
  | None => Ok None
  | Some d =>
      let lead_time_seconds :=
        Datetime.total_seconds (Datetime.sub d created_date) in
      Ok (Some (lead_time_seconds / 3600)%Q)
  end.

Fixpoint get_issue_completion_date_from (hs : list History)
    : result (option datetime) :=
  match hs with
  | [] => Ok None
  | history :: hs' =>
      if existsb is_done_item (items history) then
        d ← parse_jira_datetime (created history); Ok (Some d)
      else get_issue_completion_date_from hs'
  end.

Definition get_issue_completion_date (issue : Issue)
    : result (option datetime) :=
  get_issue_completion_date_from (histories issue).

Definition get_issue_creation_date (issue : Issue) : result datetime :=
  parse_jira_datetime (fields_created issue).

Definition format_period_key (date : datetime) (period_type : string)
    : string :=
  if String.eqb period_type "yearly" then Datetime.strftime date "%Y"
  else if String.eqb period_type "monthly" then Datetime.strftime date "%Y-%m"
  else if String.eqb period_type "weekly" then
    let '(iso_year, iso_week, _) := Datetime.isocalendar date in
    String.append (PyStr.of_int iso_year)
      (String.append "-W" (PyStr.zfill 2 iso_week))
  else if String.eqb period_type "daily" then
    Datetime.strftime date "%Y-%m-%d"
  else "".

(** *** Averages *)

(* The per-issue dictionary built by the aggregator.  A value that is
   absent or None is [None]. *)
Record Metrics := {
  ticket_key : string;
  time_in_progress_hours : option Q;
  time_in_review_hours : option Q;
  lead_time_hours : option Q
}.

Record Averages := {
  ticket_count : nat;
  avg_time_in_progress_hours : Q;
  avg_time_in_review_hours : Q;
  avg_lead_time_hours : Q;
  avg_time_in_progress_days : Q;
  avg_time_in_review_days : Q;
  avg_lead_time_days : Q
}.

(* Truth value of [m.get(k)]: None and zero are false. *)
Definition truthy (v : option Q) : bool :=
  match v with
  | Some q => negb (Qeq_bool q 0)
  | None => false
  end.

(* [m[k] for m in metrics_list if m.get(k)] *)
Definition valid_values (get : Metrics -> option Q) (l : list Metrics)
    : list Q :=
  omap (fun m => if truthy (get m) then get m else None) l.

(* sum(valid) / len(valid) if valid else 0 *)
Definition average (valid : list Q) : result Q :=
  match valid with
  | [] => Ok 0%Q
  | _ :: _ => py_div (py_sum valid) (inject_Z (Z.of_nat (List.length valid)))
  end.

Definition calculate_averages (metrics_list : list Metrics)
    : result Averages :=
  match metrics_list with
  | [] => Ok (Build_Averages 0 0 0 0 0 0 0)
  | _ :: _ =>
      let total_tickets := List.length metrics_list in
      let valid_progress := valid_values time_in_progress_hours metrics_list in
      let valid_review := valid_values time_in_review_hours metrics_list in
      let valid_lead := valid_values lead_time_hours metrics_list in
      avg_progress ← average valid_progress;
      avg_review ← average valid_review;
      avg_lead ← average valid_lead;
      Ok (Build_Averages total_tickets
            (round2 avg_progress) (round2 avg_review) (round2 avg_lead)
            (round2 (avg_progress / 24)) (round2 (avg_review / 24))
            (round2 (avg_lead / 24)))
  end.

Definition ensure_timezone_aware (dt : option datetime) : option datetime :=
  match dt with
  | None => None
  | Some d =>
      match Datetime.utcoffset d with
      | None =>
          Some (mk_datetime (Datetime.year d) (Datetime.month d)
                  (Datetime.day d) (Datetime.hour d) (Datetime.minute d)
                  (Datetime.second d) (Datetime.microsecond d) (Some 0))
      | Some _ => Some d
      end
  end.

(** *** Aggregation by period *)

Record PeriodSummary := {
  period : string;
  averages : Averages
}.

(* The four defaultdict(list) containers. *)
Record Buckets := {
  yearly_metrics : gmap string (list Metrics);
  monthly_metrics : gmap string (list Metrics);
  weekly_metrics : gmap string (list Metrics);
  daily_metrics : gmap string (list Metrics)
}.

(* d[k].append(m) on a defaultdict(list) *)
Definition bucket_append (k : string) (m : Metrics)
    (d : gmap string (list Metrics)) : gmap string (list Metrics) :=
  <[k := default [] (d !! k) ++ [m]]> d.

Record Aggregated := {
  yearly : list PeriodSummary;
  monthly : list PeriodSummary;
  weekly : list PeriodSummary;
  daily : list PeriodSummary
}.

(* The loop over the issues.  [clock] lists the readings of the wall clock:
   the two accumulators run on the [n]-th issue read [clock (2n)] and
   [clock (2n+1)]. *)
Fixpoint aggregate_issues (clock : nat -> datetime) (n : nat)
    (start_date end_date : option datetime) (issues : list Issue)
    (b : Buckets) : result Buckets :=
  match issues with
  | [] => Ok b
  | issue :: rest =>
      let continue :=
        aggregate_issues clock (S n) start_date end_date rest in
      time_in_progress ← calculate_time_in_progress (clock (2 * n)%nat) issue;
      time_in_review ←
        calculate_time_in_review (clock (2 * n + 1)%nat) issue;
      lead_time ← calculate_lead_time issue;
      match lead_time with
      | None => continue b
      | Some lead =>
          created_date ← get_issue_creation_date issue;
          completion_date ← get_issue_completion_date issue;
          match completion_date with
          | None => continue b
          | Some completion =>
              if match start_date with
                 | Some sd => Datetime.ltb completion sd
                 | None => false
                 end then continue b
              else if match end_date with
                      | Some ed => Datetime.gtb completion ed
                      | None => false
                      end then continue b
              else
                let metrics_dict :=
                  Build_Metrics (key issue) (Some time_in_progress)
                    (Some time_in_review) (Some lead) in
                continue
                  (Build_Buckets
                     (bucket_append (format_period_key completion "yearly")
                        metrics_dict (yearly_metrics b))
                     (bucket_append (format_period_key completion "monthly")
                        metrics_dict (monthly_metrics b))
                     (bucket_append (format_period_key completion "weekly")
                        metrics_dict (weekly_metrics b))
                     (bucket_append (format_period_key completion "daily")
                        metrics_dict (daily_metrics b)))
          end
      end
  end.

(* [for period, metrics in sorted(d.items())]: the keys of a dictionary are
   distinct, so the order of the pairs is the order of their keys. *)
Fixpoint summarise (l : list (string * list Metrics))
    : result (list PeriodSummary) :=
  match l with
  | [] => Ok []
  | (p, metrics) :: l' =>
      avg_metrics ← calculate_averages metrics;
      rest ← summarise l';
      Ok (Build_PeriodSummary p avg_metrics :: rest)
  end.

Definition period_results (d : gmap string (list Metrics))
    : result (list PeriodSummary) :=
  summarise (sorted fst (map_to_list d)).

Definition aggregate_metrics_by_period (clock : nat -> datetime)
    (issues : list Issue) (start_date end_date : option datetime)
    : result Aggregated :=
  let start_date := ensure_timezone_aware start_date in
  let end_date := ensure_timezone_aware end_date in
  b ← aggregate_issues clock 0 start_date end_date issues
        (Build_Buckets ∅ ∅ ∅ ∅);
  yearly_results ← period_results (yearly_metrics b);
  monthly_results ← period_results (monthly_metrics b);
  weekly_results ← period_results (weekly_metrics b);
  daily_results ← period_results (daily_metrics b);
  Ok (Build_Aggregated yearly_results monthly_results weekly_results
        daily_results).

(** ** The scenario of the specification *)

Definition status_change (from_status to_status : option string) : Item :=
  {| field := "status"; fromString := from_status; toString := to_status |}.

(* Created on 1 January 2024, in progress on the 2nd, in review on the 3rd,
   done on the 5th. *)
Definition scenario_issue (k : string) (from0 : option string) : Issue :=
  {| key := k;
     fields_created := "2024-01-01T00:00:00.000000+0000";
     histories :=
       [ {| created := "2024-01-02T00:00:00.000000+0000";
            items := [status_change from0 (Some "In Progress")] |};
         {| created := "2024-01-03T00:00:00.000000+0000";
            items := [status_change (Some "In Progress") (Some "In Review")] |};
         {| created := "2024-01-05T00:00:00.000000+0000";
            items := [status_change (Some "In Review") (Some "Done")] |} ] |}.

(** ** The accumulator as the specification words it

    The specification has the events ordered by their timestamp, that is by
    the instant the string denotes; the definitions of this section follow
    those words, to be compared with [acc_total], which orders the entries by
    the text of [created]. *)

Fixpoint parse_histories (hs : list History)
    : result (list (datetime * list Item)) :=
  match hs with
  | [] => Ok []
  | history :: hs' =>
      history_created ← parse_jira_datetime (created history);
      rest ← parse_histories hs';
      Ok ((history_created, items history) :: rest)
  end.

Definition acc_events (is_target : option string -> bool)
    (evs : list (datetime * list Item)) (st : acc_state) : acc_state :=
  foldl (fun st ev => foldl (acc_item is_target (fst ev)) st (snd ev)) st evs.

(* Stable sort by instant. *)
Definition chronological (evs : list (datetime * list Item))
    : list (datetime * list Item) :=
  sorted_by Z.ltb (fun ev => Datetime.instant (fst ev)) evs.

Definition acc_total_chronological (is_target : option string -> bool)
    (now : datetime) (changelog : Issue) : result Q :=
  evs ← parse_histories (histories changelog);
  Ok (close_interval now (acc_events is_target (chronological evs) (None, 0%Q))).

Definition time_in_progress_chronological (now : datetime)
    (changelog : Issue) : result Q :=
  total_time_seconds ← acc_total_chronological is_in_progress now changelog;
  Ok (total_time_seconds / 3600)%Q.

(* The event of a history entry whose timestamp parses. *)
Definition parsed_event (history : History) : datetime * list Item :=
  (match parse_jira_datetime (created history) with
   | Ok t => t
   | Err _ => mk_datetime 1 1 1 0 0 0 0 (Some 0)
   end, items history).

(* The order of the text of two timestamps is the order of their instants. *)
Definition text_order_is_time_order (hs : list History) : Prop :=
  forall h1 h2, In h1 hs -> In h2 hs ->
    Z.ltb (Datetime.instant (fst (parsed_event h1)))
          (Datetime.instant (fst (parsed_event h2)))
    = String.ltb (created h1) (created h2).

(* An event that closes an open interval: a status change out of the
   target status that does not lead back into it. *)
Definition acts_as_exit (is_target : option string -> bool) (item : Item)
    : bool :=
  String.eqb (field item) "status"
  && negb (is_target (toString item))
  && is_target (fromString item).

Definition no_exit (is_target : option string -> bool) (its : list Item)
    : Prop :=
  Forall (fun item => acts_as_exit is_target item = false) its.

(* Events listed with non-decreasing instants. *)
Definition instant_le (a b : datetime * list Item) : Prop :=
  Datetime.instant (fst a) <= Datetime.instant (fst b).

Definition in_time_order (evs : list (datetime * list Item)) : Prop :=
  StronglySorted instant_le evs.

(* The accumulator between two events: the total is not negative and an
   open interval started no later than [bound]. *)
Definition acc_inv (bound : Z) (st : acc_state) : Prop :=
  (0 <= snd st)%Q
  /\ forall s, fst st = Some s -> Datetime.instant s <= bound.

(** ** Predicates used in the statements *)

(* An entry of the changelog that moves the issue to "Done". *)
Definition has_done_event (issue : Issue) : Prop :=
  exists history item,
    In history (histories issue) /\ In item (items history)
    /\ field item = "status" /\ toString item = Some "Done".

Definition no_done_item (history : History) : Prop :=
  forall item, In item (items history) ->
    ~ (field item = "status" /\ toString item = Some "Done").

(* Every timestamp of the issue is in the format of the Jira API. *)
Definition timestamps_parse (issue : Issue) : Prop :=
  (exists c, parse_jira_datetime (fields_created issue) = Ok c)
  /\ Forall (fun h => exists t, parse_jira_datetime (created h) = Ok t)
       (histories issue).

(* s1 < s2 on str *)
Definition str_lt (s1 s2 : string) : Prop := String.ltb s1 s2 = true.

(* The four lists of a result. *)
Definition period_lists (res : Aggregated) : list (list PeriodSummary) :=
  [yearly res; monthly res; weekly res; daily res].

(* Every key of a container holds at least one record. *)
Definition nonempty_lists (d : gmap string (list Metrics)) : Prop :=
  map_Forall (fun _ l => l <> []) d.

Definition nonempty_buckets (b : Buckets) : Prop :=
  nonempty_lists (yearly_metrics b) /\ nonempty_lists (monthly_metrics b)
  /\ nonempty_lists (weekly_metrics b) /\ nonempty_lists (daily_metrics b).

(* What the specification asks of one list of period summaries. *)
Definition well_formed_periods (l : list PeriodSummary) : Prop :=
  Forall (fun s => (1 <= ticket_count (averages s))%nat) l
  /\ StronglySorted str_lt (map period l)
  /\ NoDup (map period l).

(** ** Echoed entries

    [echo_issue] is the issue with every event into the target status
    recorded twice, the copy right after the original. *)

Definition is_entry (is_target : option string -> bool) (item : Item) : bool :=
  String.eqb (field item) "status" && is_target (toString item).

Fixpoint echo_items (is_target : option string -> bool) (its : list Item)
    : list Item :=
  match its with
  | [] => []
  | item :: its' =>
      if is_entry is_target item
      then item :: item :: echo_items is_target its'
      else item :: echo_items is_target its'
  end.

Definition echo_history (is_target : option string -> bool) (h : History)
    : History :=
  {| created := created h; items := echo_items is_target (items h) |}.

Definition echo_issue (is_target : option string -> bool) (issue : Issue)
    : Issue :=
  {| key := key issue;
     fields_created := fields_created issue;
     histories := map (echo_history is_target) (histories issue) |}.

(** ** Changelogs written across the end of daylight saving time

    On 27 October 2024 the clocks of central Europe went from 03:00 +0200
    back to 02:00 +0100: the text "02:50 +0200" denotes an instant twenty
    minutes before the text "02:10 +0100". *)

(* In progress at 00:50 UTC, in review at 01:10 UTC, done at 08:00 UTC. *)
Definition dst_issue : Issue :=
  {| key := "DST-1";
     fields_created := "2024-10-25T09:00:00.000000+0200";
     histories :=
       [ {| created := "2024-10-27T02:50:00.000000+0200";
            items := [status_change (Some "To Do") (Some "In Progress")] |};
         {| created := "2024-10-27T02:10:00.000000+0100";
            items := [status_change (Some "In Progress") (Some "In Review")] |};
         {| created := "2024-10-27T09:00:00.000000+0100";
            items := [status_change (Some "In Review") (Some "Done")] |} ] |}.

(* Out of progress at 00:50 UTC, in progress at 01:10 UTC, the entry
   recorded once more the next morning, and never out again. *)
Definition dst_open_issue : Issue :=
  {| key := "DST-2";
     fields_created := "2024-10-25T09:00:00.000000+0200";
     histories :=
       [ {| created := "2024-10-27T02:50:00.000000+0200";
            items := [status_change (Some "In Progress") (Some "In Review")] |};
         {| created := "2024-10-27T02:10:00.000000+0100";
            items := [status_change (Some "In Review") (Some "In Progress")] |};
         {| created := "2024-10-28T09:00:00.000000+0100";
            items := [status_change (Some "In Review") (Some "In Progress")] |} ] |}.

(* In progress at 00:50 UTC, the entry recorded once more at 01:10 UTC, and
   no exit at all. *)
Definition dst_entered_issue : Issue :=
  {| key := "DST-3";
     fields_created := "2024-10-25T09:00:00.000000+0200";
     histories :=
       [ {| created := "2024-10-27T02:50:00.000000+0200";
            items := [status_change (Some "To Do") (Some "In Progress")] |};
         {| created := "2024-10-27T02:10:00.000000+0100";
            items := [status_change (Some "To Do") (Some "In Progress")] |} ] |}.

(* 2024-10-28T09:00 +0100, the last entry of [dst_open_issue] *)
Definition dst_last_entry : datetime := mk_datetime 2024 10 28 9 0 0 0 (Some 3600).

Definition noon_utc (y m d : Z) : datetime := mk_datetime y m d 12 0 0 0 (Some 0).

(* 2024-10-27T02:50 +0200 and 2024-10-27T02:10 +0100 *)
Definition dst_0250_summer : datetime := mk_datetime 2024 10 27 2 50 0 0 (Some 7200).
Definition dst_0210_winter : datetime := mk_datetime 2024 10 27 2 10 0 0 (Some 3600).

(** ** A sample run of the aggregator *)

Definition done_issue (k created_at done_at : string) : Issue :=
  {| key := k;
     fields_created := created_at;
     histories :=
       [ {| created := done_at;
            items := [status_change (Some "To Do") (Some "Done")] |} ] |}.

Definition sample_issues : list Issue :=
  [ scenario_issue "K-1" (Some "To Do");
    dst_open_issue;
    done_issue "K-2" "2022-12-20T10:00:00.000000+0000"
      "2023-01-01T10:00:00.000000+0000";
    dst_issue;
    done_issue "K-3" "2024-01-04T08:30:00.000000+0000"
      "2024-01-05T18:00:00.000000+0000" ].

Definition sample_clock (n : nat) : datetime := noon_utc 2024 11 1.

Definition sample_result : Aggregated :=
  Eval vm_compute in
    match aggregate_metrics_by_period sample_clock sample_issues None None with
    | Ok res => res
    | Err _ => Build_Aggregated [] [] [] []
    end.

(** ** app/metrics.py: round_metrics

    The values of a metrics dictionary are floats, integers, strings or
    None; [round_metrics] rewrites the floats in place and returns the
    dictionary. *)

Inductive pyval :=
| PyFloat (q : Q)
| PyInt (n : Z)
| PyStr (s : string)
| PyNone.

Definition round_value (value : pyval) : pyval :=
  match value with
  | PyFloat q => PyFloat (round2 q)
  | _ => value
  end.

Definition round_metrics (metrics_dict : gmap string pyval)
    : gmap string pyval :=
  round_value <$> metrics_dict.

(** ** app/main.py: what the endpoints compute

    The issue records are the answers of the Jira client, given here as
    arguments; an exception is what the handlers turn into the status 500. *)

(* get_ticket_metrics *)
Definition get_ticket_metrics (clock : nat -> datetime) (ticket_key : string)
    (issue_data : Issue) : result Metrics :=
  time_in_progress ← calculate_time_in_progress (clock 0%nat) issue_data;
  time_in_review ← calculate_time_in_review (clock 1%nat) issue_data;
  lead_time ← calculate_lead_time issue_data;
  Ok (Build_Metrics ticket_key (Some time_in_progress) (Some time_in_review)
        lead_time).

(* The loop of both project endpoints: one record per issue found, the key
   taken from the search result and the metrics from the issue fetched. *)
Fixpoint collect_metrics (clock : nat -> datetime) (n : nat)
    (found : list (string * Issue)) : result (list Metrics) :=
  match found with
  | [] => Ok []
  | (issue_key, issue_data) :: rest =>
      time_in_progress ←
        calculate_time_in_progress (clock (2 * n)%nat) issue_data;
      time_in_review ←
        calculate_time_in_review (clock (2 * n + 1)%nat) issue_data;
      lead_time ← calculate_lead_time issue_data;
      results ← collect_metrics clock (S n) rest;
      Ok (Build_Metrics issue_key (Some time_in_progress)
            (Some time_in_review) lead_time :: results)
  end.

(* sum(r[k] for r in results if r[k]) / len(results) *)
Definition project_average (get : Metrics -> option Q)
    (results : list Metrics) : result Q :=
  py_div (py_sum (valid_values get results))
         (inject_Z (Z.of_nat (List.length results))).

Definition summary_of (count : nat) (avg_progress avg_review avg_lead : Q)
    : Averages :=
  Build_Averages count
    (round2 avg_progress) (round2 avg_review) (round2 avg_lead)
    (round2 (avg_progress / 24)) (round2 (avg_review / 24))
    (round2 (avg_lead / 24)).

(* The summary of get_project_metrics. *)
Definition project_summary (results : list Metrics) : result Averages :=
  match results with
  | [] => Ok (summary_of (List.length results) 0 0 0)
  | _ :: _ =>
      avg_progress ← project_average time_in_progress_hours results;
      avg_review ← project_average time_in_review_hours results;
      avg_lead ← project_average lead_time_hours results;
      Ok (summary_of (List.length results) avg_progress avg_review avg_lead)
  end.


(* The summary of get_filtered_project_metrics. *)
Definition filtered_summary (results : list Metrics) : result Averages :=
  match results with
  | [] => Ok (summary_of (List.length results) 0 0 0)
  | _ :: _ =>
      avg_progress ← average (valid_values time_in_progress_hours results);
      avg_review ← average (valid_values time_in_review_hours results);
      avg_lead ← average (valid_values lead_time_hours results);
      Ok (summary_of (List.length results) avg_progress avg_review avg_lead)
  end.

Inductive PeriodType := YEARLY | MONTHLY | WEEKLY | DAILY | ALL.

Record MetricsSummary := {
  assignee_name : option string;
  summary_start_date : option datetime;
  summary_end_date : option datetime;
  summary_averages : Averages
}.

Record MetricsResponse := {
  tickets : list Metrics;
  summary : MetricsSummary;
  time_based_metrics : option Aggregated
}.

Definition is_all (period_type : PeriodType) : bool :=
  match period_type with
  | ALL => true
  | _ => false
  end.

(* get_filtered_project_metrics, after the search: the aggregation reads the
   clock after the loop has read it twice per issue. *)
Definition get_filtered_project_metrics (clock : nat -> datetime)
    (assignee : option string) (start_date end_date : option datetime)
    (period_type : PeriodType) (found : list (string * Issue))
    : result MetricsResponse :=
  let start_date := ensure_timezone_aware start_date in
  let end_date := ensure_timezone_aware end_date in
  results ← collect_metrics clock 0 found;
  averages ← filtered_summary results;
  let summary := Build_MetricsSummary assignee start_date end_date averages in
  let issue_data_list := map snd found in
  if negb (is_all period_type)
     && negb (Nat.eqb (List.length issue_data_list) 0)
  then
    time_metrics ←
      aggregate_metrics_by_period
        (fun k => clock (2 * List.length found + k)%nat)
        issue_data_list start_date end_date;
    Ok (Build_MetricsResponse results summary (Some time_metrics))
  else Ok (Build_MetricsResponse results summary None).

(** ** Further notions used in the statements *)

(* The items of a changelog that record a change of status. *)
Definition status_items (its : list Item) : list Item :=
  List.filter (fun item => String.eqb (field item) "status") its.

Definition status_only (issue : Issue) : Issue :=
  {| key := key issue;
     fields_created := fields_created issue;
     histories :=
       map (fun h => {| created := created h;
                        items := status_items (items h) |})
           (histories issue) |}.

(* No item of the list is an event into the target status. *)
Definition no_entry (is_target : option string -> bool) (its : list Item)
    : Prop :=
  Forall (fun item => is_entry is_target item = false) its.

(* No event of the changelog enters the target status. *)
Definition never_enters (is_target : option string -> bool) (issue : Issue)
    : Prop :=
  Forall (fun h => no_entry is_target (items h)) (histories issue).

(* In review since 2024-01-03T00:00 UTC. *)
Definition open_review_issue : Issue :=
  {| key := "K-4";
     fields_created := "2024-01-01T00:00:00.000000+0000";
     histories :=
       [ {| created := "2024-01-03T00:00:00.000000+0000";
            items := [status_change (Some "In Progress") (Some "In Review")] |} ] |}.

Definition utc (y m d h mi : Z) : datetime := mk_datetime y m d h mi 0 0 (Some 0).

(* In progress for half an hour. *)
Definition half_hour_entry : History :=
  {| created := "2024-01-02T00:00:00.000000+0000";
     items := [status_change None (Some "In Progress")] |}.

Definition half_hour_exit : History :=
  {| created := "2024-01-02T00:30:00.000000+0000";
     items := [status_change (Some "In Progress") (Some "Done")] |}.

Definition half_hour_issue : Issue :=
  {| key := "K-5";
     fields_created := "2024-01-01T00:00:00.000000+0000";
     histories := [half_hour_entry; half_hour_exit] |}.

(* The tickets counted by a list of summaries. *)
Definition total_tickets (l : list PeriodSummary) : nat :=
  sum_list (map (fun s => ticket_count (averages s)) l).

(* The records held by a container. *)
Definition bucket_size (d : gmap string (list Metrics)) : nat :=
  sum_list (map (fun kv => List.length (snd kv)) (map_to_list d)).

(* completion_date is neither before start_date nor after end_date. *)
Definition in_window (start_date end_date : option datetime)
    (completion : datetime) : bool :=
  negb (match start_date with
        | Some sd => Datetime.ltb completion sd
        | None => false
        end)
  && negb (match end_date with
           | Some ed => Datetime.gtb completion ed
           | None => false
           end).

(* The calendar date of a datetime, and the order of calendar dates. *)
Definition date_lt (a b : datetime) : Prop :=
  Datetime.year a < Datetime.year b
  \/ (Datetime.year a = Datetime.year b
      /\ (Datetime.month a < Datetime.month b
          \/ (Datetime.month a = Datetime.month b
              /\ Datetime.day a < Datetime.day b))).

Definition month_lt (a b : datetime) : Prop :=
  Datetime.year a < Datetime.year b
  \/ (Datetime.year a = Datetime.year b
      /\ Datetime.month a < Datetime.month b).

(* The fields of a date are those of a calendar date with a year of four
   digits, which every platform formats alike. *)
Definition calendar_fields (dt : datetime) : Prop :=
  1000 <= Datetime.year dt <= 9999
  /\ 1 <= Datetime.month dt <= 12
  /\ 1 <= Datetime.day dt <= 31.

(* Field by field, up to the equality of rationals. *)
Definition averages_equiv (a b : Averages) : Prop :=
  ticket_count a = ticket_count b
  /\ (avg_time_in_progress_hours a == avg_time_in_progress_hours b)%Q
  /\ (avg_time_in_review_hours a == avg_time_in_review_hours b)%Q
  /\ (avg_lead_time_hours a == avg_lead_time_hours b)%Q
  /\ (avg_time_in_progress_days a == avg_time_in_progress_days b)%Q
  /\ (avg_time_in_review_days a == avg_time_in_review_days b)%Q
  /\ (avg_lead_time_days a == avg_lead_time_days b)%Q.

(** ** A sample run of the endpoints *)

Definition sample_ticket : Issue :=
  done_issue "K-3" "2024-01-04T08:30:00.000000+0000"
    "2024-01-05T18:00:00.000000+0000".

Definition sample_ticket_metrics : Metrics :=
  Eval vm_compute in
    match get_ticket_metrics sample_clock "K-3" sample_ticket with
    | Ok m => m
    | Err _ => Build_Metrics "K-3" None None None
    end.

Definition sample_ticket_done : datetime := utc 2024 1 5 18 0.

Definition sample_ticket_averages : Averages :=
  Eval vm_compute in
    match calculate_averages [sample_ticket_metrics] with
    | Ok a => a
    | Err _ => Build_Averages 0 0 0 0 0 0 0
    end.

Definition sample_found : list (string * Issue) :=
  map (fun issue => (key issue, issue)) sample_issues.

Definition sample_response : MetricsResponse :=
  Eval vm_compute in
    match get_filtered_project_metrics sample_clock None None None MONTHLY
            sample_found with
    | Ok response => response
    | Err _ =>
        Build_MetricsResponse []
          (Build_MetricsSummary None None None
             (Build_Averages 0 0 0 0 0 0 0)) None
    end.

(** ** Basic facts *)

Lemma bind_Ok_inv {A B} (r : result A) (k : A -> result B) (b : B) :
  (r ≫= k) = Ok b -> exists a, r = Ok a /\ k a = Ok b.
Proof. destruct r as [a|e]; simpl; [eauto | discriminate]. Qed.

Lemma eqb_opt_true (a : option string) (b : string) :
  PyStr.eqb_opt a b = true <-> a = Some b.
Proof.
  destruct a as [s|]; simpl.
  - rewrite String.eqb_eq. split; congruence.
  - split; discriminate.
Qed.

Lemma is_done_item_spec (item : Item) :
  is_done_item item = true
  <-> field item = "status" /\ toString item = Some "Done".
Proof.
  unfold is_done_item.
  rewrite andb_true_iff, String.eqb_eq, eqb_opt_true. reflexivity.
Qed.

(** ** The library models on sample inputs *)

Example parse_jira_datetime_sample :
  parse_jira_datetime "2024-10-27T02:50:00.123+0200"
  = Ok (mk_datetime 2024 10 27 2 50 0 123000 (Some 7200))
  /\ parse_jira_datetime "2024-02-30T00:00:00.000000+0000" = Err ValueError
  /\ parse_jira_datetime "2024-01-01T00:00:00+0000" = Err ValueError
  /\ parse_jira_datetime "2024-01-01 00:00:00.000000+0000" = Err ValueError.
Proof. repeat split; vm_compute; reflexivity. Qed.

Example status_tests_sample :
  is_in_review (Some "  IN Review ") = true
  /\ is_in_review (Some "In Progress") = false
  /\ is_in_review None = false
  /\ is_in_progress (Some "In Progress") = true
  /\ is_in_progress (Some "in progress") = false
  /\ is_in_progress None = false.
Proof. repeat split. Qed.

Example isocalendar_sample :
  Datetime.isocalendar (mk_datetime 2024 12 30 0 0 0 0 None) = (2025, 1, 1)
  /\ Datetime.isocalendar (mk_datetime 2020 12 31 0 0 0 0 None) = (2020, 53, 4)
  /\ Datetime.isocalendar (mk_datetime 2021 1 3 0 0 0 0 None) = (2020, 53, 7)
  /\ Datetime.isocalendar (mk_datetime 2024 1 5 0 0 0 0 None) = (2024, 1, 5).
Proof. repeat split; vm_compute; reflexivity. Qed.

Example sorted_is_stable :
  sorted fst [("b", 1); ("a", 2); ("b", 3); ("a", 4)]
  = [("a", 2); ("a", 4); ("b", 1); ("b", 3)].
Proof. reflexivity. Qed.

Example round2_sample :
  (round2 (1 # 3) == 33 # 100)%Q /\ (round2 (5 # 1000) == 0)%Q
  /\ (round2 (15 # 1000) == 2 # 100)%Q /\ (round2 (-7 # 3) == -233 # 100)%Q.
Proof. repeat split. Qed.

(** ** The stable sort *)

Section sorted_facts.
Context {A K : Type} (lt : K -> K -> bool) (key : A -> K).
Hypothesis lt_asym : forall a b, lt a b = true -> lt b a = false.
Hypothesis le_trans :
  forall a b c, lt b a = false -> lt c b = false -> lt c a = false.

Lemma insert_by_perm (x : A) (l : list A) :
  Permutation (insert_by lt key x l) (x :: l).
Proof.
  induction l as [|y l IH]; cbn [insert_by]; [reflexivity|].
  destruct (lt (key y) (key x)); [|reflexivity].
  rewrite IH. apply perm_swap.
Qed.

Lemma sorted_by_perm (l : list A) : Permutation (sorted_by lt key l) l.
Proof.
  induction l as [|x l IH]; [reflexivity|].
  unfold sorted_by in *. cbn [foldr]. rewrite insert_by_perm.
  constructor. exact IH.
Qed.

Lemma insert_by_sorted (x : A) (l : list A) :
  StronglySorted (key_le lt key) l -> StronglySorted (key_le lt key) (insert_by lt key x l).
Proof.
  induction 1 as [|y l Hl IH Hy]; cbn [insert_by].
  - repeat constructor.
  - destruct (lt (key y) (key x)) eqn:Hyx.
    + constructor; [exact IH|].
      rewrite insert_by_perm. constructor; [|exact Hy].
      apply lt_asym. exact Hyx.
    + constructor; [constructor; assumption|].
      constructor; [exact Hyx|].
      eapply Forall_impl; [exact Hy|].
      intros z Hz. unfold key_le in *. eapply le_trans; eassumption.
Qed.

Lemma sorted_by_sorted (l : list A) :
  StronglySorted (key_le lt key) (sorted_by lt key l).
Proof.
  induction l as [|x l IH]; [constructor|].
  unfold sorted_by in *. cbn [foldr]. apply insert_by_sorted. exact IH.
Qed.

(* A list already in order is left as it is. *)
Lemma sorted_by_id (l : list A) :
  StronglySorted (key_le lt key) l -> sorted_by lt key l = l.
Proof.
  induction 1 as [|x l Hl IH Hx]; [reflexivity|].
  unfold sorted_by in *. cbn [foldr]. rewrite IH.
  destruct l as [|y l']; [reflexivity|]. cbn [insert_by].
  apply Forall_cons in Hx as [Hxy _]. unfold key_le in Hxy.
  rewrite Hxy. reflexivity.
Qed.
End sorted_facts.

Lemma str_ltb_asym (a b : string) :
  String.ltb a b = true -> String.ltb b a = false.
Proof.
  unfold String.ltb. rewrite (String.compare_antisym a b).
  destruct (String.compare b a); simpl; congruence.
Qed.

Lemma str_ltb_lt (a b : string) :
  String.ltb a b = true <-> String_as_OT.lt a b.
Proof.
  rewrite <- String_as_OT.cmp_lt. unfold String.ltb, String_as_OT.cmp.
  destruct (String.compare a b); split; congruence.
Qed.

Lemma str_ltb_total (a b : string) :
  String.ltb a b = false -> a <> b -> String.ltb b a = true.
Proof.
  unfold String.ltb. rewrite (String.compare_antisym b a).
  destruct (String.compare a b) eqn:Hc; simpl; try congruence.
  intros _ Hne. apply String.compare_eq_iff in Hc. contradiction.
Qed.

Lemma str_le_trans (a b c : string) :
  String.ltb b a = false -> String.ltb c b = false -> String.ltb c a = false.
Proof.
  intros Hba Hcb. destruct (String.ltb c a) eqn:Hca; [|reflexivity].
  destruct (string_dec c b) as [->|Hne]; [congruence|].
  apply (str_ltb_total _ _ Hcb) in Hne.
  apply str_ltb_lt in Hne, Hca.
  assert (String.ltb b a = true) as Hlt
    by (apply str_ltb_lt; eapply String_as_OT.lt_trans; eassumption).
  congruence.
Qed.

(* sorted() returns the entries in ascending order of their keys. *)
Lemma sorted_ascending {A} (key : A -> string) (l : list A) :
  Permutation (sorted key l) l
  /\ StronglySorted (key_le String.ltb key) (sorted key l).
Proof.
  split.
  - apply sorted_by_perm.
  - apply sorted_by_sorted; [exact str_ltb_asym | exact str_le_trans].
Qed.

(* With distinct keys the order is strict. *)
Lemma sorted_strict {A} (key : A -> string) (l : list A) :
  NoDup (map key l) ->
  StronglySorted str_lt (map key (sorted key l)).
Proof.
  intros Hnd. destruct (sorted_ascending key l) as [Hperm Hsorted].
  assert (NoDup (map key (sorted key l))) as Hnd'
    by (rewrite Hperm; exact Hnd).
  clear Hperm Hnd. induction Hsorted as [|x l' Hl' IH Hx]; [constructor|].
  cbn [map] in *. apply NoDup_cons in Hnd' as [Hnotin Hnd'].
  constructor; [apply IH; exact Hnd'|].
  apply Forall_forall. intros k Hk.
  apply list_elem_of_fmap in Hk as (y & -> & Hy).
  rewrite Forall_forall in Hx. specialize (Hx y Hy).
  apply str_ltb_total; [exact Hx|].
  intros Heq. apply Hnotin. rewrite <- Heq.
  apply list_elem_of_fmap. eauto.
Qed.

Lemma insert_by_map {A B K1 K2} (lt1 : K1 -> K1 -> bool) (key1 : A -> K1)
    (lt2 : K2 -> K2 -> bool) (key2 : B -> K2) (g : A -> B)
    (x : A) (l : list A) :
  (forall y, In y l -> lt2 (key2 (g y)) (key2 (g x)) = lt1 (key1 y) (key1 x)) ->
  insert_by lt2 key2 (g x) (map g l) = map g (insert_by lt1 key1 x l).
Proof.
  induction l as [|y l IH]; intros Hkey; [reflexivity|].
  cbn [map insert_by]. rewrite (Hkey y) by (left; reflexivity).
  destruct (lt1 (key1 y) (key1 x)); [|reflexivity].
  cbn [map]. rewrite IH; [reflexivity|].
  intros z Hz. apply Hkey. right. exact Hz.
Qed.

(* A change of the entries under which the keys compare as before commutes
   with the sort. *)
Lemma sorted_by_map {A B K1 K2} (lt1 : K1 -> K1 -> bool) (key1 : A -> K1)
    (lt2 : K2 -> K2 -> bool) (key2 : B -> K2) (g : A -> B) (l : list A) :
  (forall a b, In a l -> In b l ->
     lt2 (key2 (g a)) (key2 (g b)) = lt1 (key1 a) (key1 b)) ->
  sorted_by lt2 key2 (map g l) = map g (sorted_by lt1 key1 l).
Proof.
  induction l as [|x l IH]; intros Hkey; [reflexivity|].
  unfold sorted_by in *. cbn [map foldr].
  rewrite IH by (intros a b Ha Hb; apply Hkey; right; assumption).
  apply insert_by_map. intros y Hy. apply Hkey; [right | left; reflexivity].
  eapply Permutation_in; [apply (sorted_by_perm lt1 key1 l) | exact Hy].
Qed.

(** ** The worked scenario *)

Lemma parse_scenario_dates :
  parse_jira_datetime "2024-01-02T00:00:00.000000+0000"
    = Ok (mk_datetime 2024 1 2 0 0 0 0 (Some 0))
  /\ parse_jira_datetime "2024-01-03T00:00:00.000000+0000"
    = Ok (mk_datetime 2024 1 3 0 0 0 0 (Some 0))
  /\ parse_jira_datetime "2024-01-05T00:00:00.000000+0000"
    = Ok (mk_datetime 2024 1 5 0 0 0 0 (Some 0)).
Proof. repeat split; vm_compute; reflexivity. Qed.

Lemma review_ignores_entry_to_progress (ts : datetime) (total : Q)
    (from0 : option string) :
  acc_item is_in_review ts (None, total)
    (status_change from0 (Some "In Progress")) = (None, total).
Proof.
  unfold acc_item, status_change; simpl.
  destruct (is_in_review from0); reflexivity.
Qed.

(** C2: on the scenario issue (created 2024-01-01, in progress 01-02, in
    review 01-03, done 01-05) the time in progress is 24 hours, the time in
    review 48 hours and the lead time 96 hours, whatever the clock reads and
    whatever status the issue came from. *)
Theorem scenario_metrics (k : string) (from0 : option string) (now : datetime) :
  (exists p, calculate_time_in_progress now (scenario_issue k from0) = Ok p
             /\ (p == 24)%Q)
  /\ (exists r, calculate_time_in_review now (scenario_issue k from0) = Ok r
                /\ (r == 48)%Q)
  /\ (exists l, calculate_lead_time (scenario_issue k from0) = Ok (Some l)
                /\ (l == 96)%Q).
Proof.
  split; [|split].
  - eexists; split; [vm_compute; reflexivity | reflexivity].
  - destruct parse_scenario_dates as (P2 & P3 & P5).
    unfold calculate_time_in_review, acc_total.
    replace (sorted created (histories (scenario_issue k from0)))
      with (histories (scenario_issue k from0)) by (vm_compute; reflexivity).
    cbn [scenario_issue histories acc_histories created items foldl].
    rewrite P2, P3, P5.
    cbn [mbind result_bind].
    rewrite review_ignores_entry_to_progress.
    eexists; split; [vm_compute; reflexivity | reflexivity].
  - eexists; split; [vm_compute; reflexivity | reflexivity].
Qed.

(** ** The unit of the time in review *)

(** C3: the time in review is the accumulated total in hours when the total
    is at least 3600 seconds and in minutes when it is below. *)
Theorem review_unit (now : datetime) (changelog : Issue) (total : Q) :
  acc_total is_in_review now changelog = Ok total ->
  ((3600 <= total)%Q ->
     calculate_time_in_review now changelog = Ok (total / 3600)%Q)
  /\ ((total < 3600)%Q ->
     calculate_time_in_review now changelog = Ok (total / 60)%Q).
Proof.
  intros Htotal. unfold calculate_time_in_review. rewrite Htotal.
  cbn [mbind result_bind].
  destruct (Qle_bool 3600 total) eqn:Hle.
  - apply Qle_bool_iff in Hle. split; [reflexivity | intros Hlt].
    exfalso. apply (Qlt_not_le _ _ Hlt Hle).
  - split; [intros Hge | reflexivity].
    apply Qle_bool_iff in Hge. congruence.
Qed.

Lemma review_unit_witness :
  calculate_time_in_review (noon_utc 2024 2 1) (scenario_issue "K-1" None)
  = Ok ((172800000000 # 1000000) / 3600)%Q.
Proof.
  apply (review_unit (noon_utc 2024 2 1) (scenario_issue "K-1" None)
           (172800000000 # 1000000)).
  - vm_compute. reflexivity.
  - vm_compute. discriminate.
Defined.

(** ** Period keys *)

(** C5: a datetime on 2023-01-01 has the yearly key "2023", the monthly key
    "2023-01", the daily key "2023-01-01" and the weekly key "2022-W52": the
    week key carries the ISO year, not the calendar year. *)
Theorem period_key_iso_year_boundary (h mi s us : Z) (tz : option Z) :
  let date := mk_datetime 2023 1 1 h mi s us tz in
  format_period_key date "yearly" = "2023"
  /\ format_period_key date "monthly" = "2023-01"
  /\ format_period_key date "daily" = "2023-01-01"
  /\ format_period_key date "weekly" = "2022-W52"
  /\ Datetime.isocalendar date = (2022, 52, 7).
Proof. repeat split; vm_compute; reflexivity. Qed.

(** ** Averages *)

Lemma average_ok (valid : list Q) : exists q, average valid = Ok q.
Proof.
  destruct valid as [|v valid']; [eexists; reflexivity|].
  unfold average, py_div.
  destruct (Qeq_bool _ _) eqn:Hz; [|eexists; reflexivity].
  apply Qeq_bool_eq in Hz. unfold Qeq in Hz. cbn in Hz. lia.
Qed.

(** C6: the averages of the empty list are the all-zero summary with count
    0, and no list makes a division fail: every average is a value, and so
    is the summary of every list. *)
Theorem averages_never_divide_by_zero :
  calculate_averages [] = Ok (Build_Averages 0 0 0 0 0 0 0)
  /\ (forall valid : list Q, exists q, average valid = Ok q)
  /\ (forall metrics_list : list Metrics,
        exists a, calculate_averages metrics_list = Ok a
                  /\ ticket_count a = List.length metrics_list).
Proof.
  split; [reflexivity|]. split; [exact average_ok|].
  intros [|m l]; [eexists; split; reflexivity|].
  unfold calculate_averages.
  destruct (average_ok (valid_values time_in_progress_hours (m :: l)))
    as [p ->].
  destruct (average_ok (valid_values time_in_review_hours (m :: l)))
    as [r ->].
  destruct (average_ok (valid_values lead_time_hours (m :: l))) as [d ->].
  eexists; split; reflexivity.
Qed.

(** ** Entries repeated while the interval is open *)

Section echo.
Variable is_target : option string -> bool.

Lemma acc_item_entry_inside (ts : datetime) (st : acc_state) (item : Item) :
  field item = "status" -> is_target (toString item) = true ->
  is_Some (fst st) -> acc_item is_target ts st item = st.
Proof.
  intros Hf Ht [s Hs]. destruct st as [start total]. simpl in Hs. subst start.
  unfold acc_item. rewrite Hf, Ht. reflexivity.
Qed.

Lemma is_entry_spec (item : Item) :
  is_entry is_target item = true
  <-> field item = "status" /\ is_target (toString item) = true.
Proof.
  unfold is_entry. rewrite andb_true_iff, String.eqb_eq. reflexivity.
Qed.

(* After an entry the interval is open. *)
Lemma acc_item_entry_opens (ts : datetime) (st : acc_state) (item : Item) :
  is_entry is_target item = true ->
  is_Some (fst (acc_item is_target ts st item)).
Proof.
  intros [Hf Ht]%is_entry_spec. destruct st as [[s|] total];
    unfold acc_item; rewrite Hf, Ht; cbn; eauto.
Qed.

Lemma acc_items_echo (ts : datetime) (its : list Item) :
  forall st : acc_state,
    foldl (acc_item is_target ts) st (echo_items is_target its)
    = foldl (acc_item is_target ts) st its.
Proof.
  induction its as [|item its IH]; intros st; [reflexivity|].
  cbn [echo_items]. destruct (is_entry is_target item) eqn:He.
  - cbn [foldl]. rewrite IH. f_equal.
    apply is_entry_spec in He as Hft. destruct Hft as [Hf Ht].
    apply acc_item_entry_inside; [exact Hf | exact Ht |].
    apply acc_item_entry_opens. exact He.
  - cbn [foldl]. apply IH.
Qed.

Lemma acc_histories_echo (hs : list History) :
  forall st : acc_state,
    acc_histories is_target (map (echo_history is_target) hs) st
    = acc_histories is_target hs st.
Proof.
  induction hs as [|h hs IH]; intros st; [reflexivity|].
  cbn [map acc_histories echo_history created items].
  destruct (parse_jira_datetime (created h)) as [t|e]; [|reflexivity].
  cbn [mbind result_bind]. rewrite acc_items_echo. apply IH.
Qed.

Lemma acc_total_echo (now : datetime) (issue : Issue) :
  acc_total is_target now (echo_issue is_target issue)
  = acc_total is_target now issue.
Proof.
  unfold acc_total, echo_issue, sorted. cbn [histories].
  rewrite (sorted_by_map String.ltb created String.ltb created)
    by reflexivity.
  rewrite acc_histories_echo. reflexivity.
Qed.
End echo.

(** C7: while the interval start is set, a status event into the target
    status leaves the start and the total as they are, in both
    accumulators; and an issue whose entries into the status are all
    recorded twice has the time in progress and the time in review of the
    issue without the copies. *)
Theorem entry_while_inside_is_noop :
  (forall (ts : datetime) (st : acc_state) (item : Item),
     field item = "status" -> is_Some (fst st) ->
     (is_in_progress (toString item) = true ->
        acc_item is_in_progress ts st item = st)
     /\ (is_in_review (toString item) = true ->
        acc_item is_in_review ts st item = st))
  /\ (forall (now : datetime) (issue : Issue),
        calculate_time_in_progress now (echo_issue is_in_progress issue)
        = calculate_time_in_progress now issue)
  /\ (forall (now : datetime) (issue : Issue),
        calculate_time_in_review now (echo_issue is_in_review issue)
        = calculate_time_in_review now issue).
Proof.
  split; [|split].
  - intros ts st item Hf Hin.
    split; intros Ht; apply acc_item_entry_inside; assumption.
  - intros now issue. unfold calculate_time_in_progress.
    rewrite acc_total_echo. reflexivity.
  - intros now issue. unfold calculate_time_in_review.
    rewrite acc_total_echo. reflexivity.
Qed.

Lemma entry_while_inside_is_noop_witness :
  let ts := noon_utc 2024 1 3 in
  let st : acc_state := (Some (noon_utc 2024 1 2), 0%Q) in
  acc_item is_in_progress ts st (status_change None (Some "In Progress")) = st.
Proof.
  intros ts st.
  refine (proj1 (proj1 entry_while_inside_is_noop ts st
                   (status_change None (Some "In Progress")) _ _) _).
  - reflexivity.
  - exists (noon_utc 2024 1 2). reflexivity.
  - reflexivity.
Defined.

(** ** Lead time and completion date *)

Lemma lead_time_items_spec (history : History) (its : list Item) :
  lead_time_items history its None
  = if existsb is_done_item its
    then d ← parse_jira_datetime (created history); Ok (Some d)
    else Ok None.
Proof.
  induction its as [|item its IH]; [reflexivity|].
  cbn [lead_time_items existsb]. destruct (is_done_item item); [reflexivity|].
  exact IH.
Qed.

(* The two scans find the same entry and read the same date. *)
Lemma lead_time_histories_completion (hs : list History) :
  lead_time_histories hs None = get_issue_completion_date_from hs.
Proof.
  induction hs as [|history hs IH]; [reflexivity|].
  cbn [lead_time_histories get_issue_completion_date_from].
  rewrite lead_time_items_spec.
  destruct (existsb is_done_item (items history)).
  - destruct (parse_jira_datetime (created history)); reflexivity.
  - cbn [mbind result_bind]. exact IH.
Qed.

Lemma existsb_done_false (history : History) :
  existsb is_done_item (items history) = false <-> no_done_item history.
Proof.
  unfold no_done_item. split.
  - intros Hex item Hin Hdone. apply is_done_item_spec in Hdone.
    assert (existsb is_done_item (items history) = true) as Ht
      by (apply existsb_exists; eauto).
    congruence.
  - intros Hno. destruct (existsb _ _) eqn:Hex; [|reflexivity].
    apply existsb_exists in Hex as (item & Hin & Hdone).
    apply is_done_item_spec in Hdone. destruct (Hno item Hin Hdone).
Qed.

Lemma completion_None_iff (hs : list History) :
  get_issue_completion_date_from hs = Ok None <-> Forall no_done_item hs.
Proof.
  induction hs as [|history hs IH]; cbn [get_issue_completion_date_from].
  - split; [constructor | reflexivity].
  - destruct (existsb is_done_item (items history)) eqn:Hex.
    + split.
      * destruct (parse_jira_datetime (created history)); discriminate.
      * intros Hall. apply Forall_cons in Hall as [Hno _].
        apply existsb_done_false in Hno. congruence.
    + rewrite IH. apply existsb_done_false in Hex. split.
      * intros Hall. constructor; assumption.
      * intros Hall. apply Forall_cons in Hall as [_ Hall]. exact Hall.
Qed.

Lemma completion_first_done (pre post : list History) (history : History) :
  Forall no_done_item pre ->
  existsb is_done_item (items history) = true ->
  get_issue_completion_date_from (pre ++ history :: post)
  = d ← parse_jira_datetime (created history); Ok (Some d).
Proof.
  intros Hpre Hdone. induction Hpre as [|h pre Hh Hpre IH].
  - cbn [app get_issue_completion_date_from]. rewrite Hdone. reflexivity.
  - cbn [app get_issue_completion_date_from].
    apply existsb_done_false in Hh. rewrite Hh. exact IH.
Qed.

Lemma no_done_event_iff (issue : Issue) :
  ~ has_done_event issue <-> Forall no_done_item (histories issue).
Proof.
  unfold has_done_event. rewrite List.Forall_forall. split.
  - intros Hno history Hh item Hi [Hf Ht]. apply Hno. eauto 6.
  - intros Hall (history & item & Hh & Hi & Hf & Ht).
    apply (Hall history Hh item Hi). split; assumption.
Qed.

Lemma calculate_lead_time_unfold (issue : Issue) (c : datetime) :
  parse_jira_datetime (fields_created issue) = Ok c ->
  calculate_lead_time issue
  = match get_issue_completion_date issue with
    | Ok None => Ok None
    | Ok (Some d) =>
        Ok (Some (Datetime.total_seconds (Datetime.sub d c) / 3600)%Q)
    | Err e => Err e
    end.
Proof.
  intros Hc. unfold calculate_lead_time, get_issue_completion_date.
  rewrite Hc. cbn [mbind result_bind].
  rewrite lead_time_histories_completion.
  destruct (get_issue_completion_date_from (histories issue)) as [[d|]|e];
    reflexivity.
Qed.

(** C4: for an issue whose creation timestamp parses, the lead time is null
    exactly when no status event of the changelog goes to "Done"; and when
    the first history entry, in the order given, that holds such an event
    has the timestamp [d], the lead time is [d] minus the creation
    timestamp, in hours. *)
Theorem lead_time_null_iff_never_done (issue : Issue) (c : datetime) :
  parse_jira_datetime (fields_created issue) = Ok c ->
  (calculate_lead_time issue = Ok None <-> ~ has_done_event issue)
  /\ (forall (pre post : list History) (history : History) (d : datetime),
        histories issue = pre ++ history :: post ->
        Forall no_done_item pre ->
        (exists item, In item (items history) /\ field item = "status"
                      /\ toString item = Some "Done") ->
        parse_jira_datetime (created history) = Ok d ->
        calculate_lead_time issue
        = Ok (Some (Datetime.total_seconds (Datetime.sub d c) / 3600)%Q)).
Proof.
  intros Hc. rewrite (calculate_lead_time_unfold issue c Hc).
  unfold get_issue_completion_date. split.
  - rewrite no_done_event_iff, <- completion_None_iff.
    destruct (get_issue_completion_date_from (histories issue)) as [[d|]|e];
      split; intros H; try discriminate; reflexivity.
  - intros pre post history d Hhs Hpre (item & Hi & Hf & Ht) Hd.
    rewrite Hhs, completion_first_done; [rewrite Hd; reflexivity | exact Hpre |].
    apply existsb_exists. exists item. split; [exact Hi|].
    apply is_done_item_spec. split; assumption.
Qed.

Lemma lead_time_null_iff_never_done_witness :
  let d := mk_datetime 2024 1 5 0 0 0 0 (Some 0) in
  let c := mk_datetime 2024 1 1 0 0 0 0 (Some 0) in
  calculate_lead_time (scenario_issue "K-1" None)
  = Ok (Some (Datetime.total_seconds (Datetime.sub d c) / 3600)%Q).
Proof.
  intros d c.
  refine (proj2 (lead_time_null_iff_never_done (scenario_issue "K-1" None)
                   (mk_datetime 2024 1 1 0 0 0 0 (Some 0)) _)
            [ {| created := "2024-01-02T00:00:00.000000+0000";
                 items := [status_change None (Some "In Progress")] |};
              {| created := "2024-01-03T00:00:00.000000+0000";
                 items := [status_change (Some "In Progress")
                             (Some "In Review")] |} ]
            []
            {| created := "2024-01-05T00:00:00.000000+0000";
               items := [status_change (Some "In Review") (Some "Done")] |}
            (mk_datetime 2024 1 5 0 0 0 0 (Some 0)) _ _ _ _).
  - vm_compute. reflexivity.
  - reflexivity.
  - repeat constructor; intros item [<-|[]] [_ Ht]; discriminate Ht.
  - eexists. split; [left; reflexivity|]. split; reflexivity.
  - vm_compute. reflexivity.
Defined.

(** C9: for an issue whose creation timestamp parses, the lead time is null
    if and only if the completion date is null, and whenever the lead time
    is a value the completion date is one too: the aggregator's second skip
    never fires once the first has let an issue through. *)
Theorem lead_time_null_iff_completion_null (issue : Issue) (c : datetime) :
  parse_jira_datetime (fields_created issue) = Ok c ->
  (calculate_lead_time issue = Ok None
   <-> get_issue_completion_date issue = Ok None)
  /\ (forall lead : Q, calculate_lead_time issue = Ok (Some lead) ->
        exists d, get_issue_completion_date issue = Ok (Some d)
                  /\ lead = (Datetime.total_seconds (Datetime.sub d c) / 3600)%Q).
Proof.
  intros Hc. rewrite (calculate_lead_time_unfold issue c Hc).
  destruct (get_issue_completion_date issue) as [[d|]|e]; split;
    try (split; intros H; try discriminate; reflexivity).
  - intros lead [= <-]. exists d. split; reflexivity.
  - intros lead [=].
  - intros lead [=].
Qed.

Lemma lead_time_null_iff_completion_null_witness :
  calculate_lead_time dst_open_issue = Ok None
  <-> get_issue_completion_date dst_open_issue = Ok None.
Proof.
  refine (proj1 (lead_time_null_iff_completion_null dst_open_issue
                   (mk_datetime 2024 10 25 9 0 0 0 (Some 7200)) _)).
  vm_compute. reflexivity.
Defined.

(** ** The aggregator *)

Lemma bucket_append_nonempty (k : string) (m : Metrics)
    (d : gmap string (list Metrics)) :
  nonempty_lists d -> nonempty_lists (bucket_append k m d).
Proof.
  intros Hd. unfold nonempty_lists, bucket_append.
  apply map_Forall_insert_2; [|exact Hd].
  destruct (default [] (d !! k)); discriminate.
Qed.

Lemma aggregate_issues_nonempty (clock : nat -> datetime)
    (start_date end_date : option datetime) (issues : list Issue) :
  forall (n : nat) (b b' : Buckets),
    nonempty_buckets b ->
    aggregate_issues clock n start_date end_date issues b = Ok b' ->
    nonempty_buckets b'.
Proof.
  induction issues as [|issue rest IH]; intros n b b' Hb Hrun.
  - cbn [aggregate_issues] in Hrun. congruence.
  - cbn [aggregate_issues] in Hrun.
    apply bind_Ok_inv in Hrun as (tip & _ & Hrun).
    apply bind_Ok_inv in Hrun as (tir & _ & Hrun).
    apply bind_Ok_inv in Hrun as ([lead|] & _ & Hrun); [|eauto].
    apply bind_Ok_inv in Hrun as (created_date & _ & Hrun).
    apply bind_Ok_inv in Hrun as ([completion|] & _ & Hrun); [|eauto].
    destruct (match start_date with
              | Some sd => Datetime.ltb completion sd
              | None => false
              end); [eauto|].
    destruct (match end_date with
              | Some ed => Datetime.gtb completion ed
              | None => false
              end); [eauto|].
    eapply IH; [|exact Hrun].
    destruct Hb as (Hy & Hm & Hw & Hd).
    repeat split; cbn; apply bucket_append_nonempty; assumption.
Qed.

Lemma calculate_averages_count (metrics_list : list Metrics) (a : Averages) :
  calculate_averages metrics_list = Ok a ->
  ticket_count a = List.length metrics_list.
Proof.
  destruct metrics_list as [|m l]; cbn [calculate_averages].
  - intros [= <-]. reflexivity.
  - intros Hrun.
    apply bind_Ok_inv in Hrun as (p & _ & Hrun).
    apply bind_Ok_inv in Hrun as (r & _ & Hrun).
    apply bind_Ok_inv in Hrun as (d & _ & Hrun).
    injection Hrun as <-. reflexivity.
Qed.

Lemma summarise_spec (l : list (string * list Metrics)) :
  forall res : list PeriodSummary,
    summarise l = Ok res ->
    map period res = map fst l
    /\ (Forall (fun p => snd p <> []) l ->
        Forall (fun s => (1 <= ticket_count (averages s))%nat) res).
Proof.
  induction l as [|[p metrics] l IH]; intros res Hrun.
  - injection Hrun as <-. split; [reflexivity | constructor].
  - cbn [summarise] in Hrun.
    apply bind_Ok_inv in Hrun as (a & Ha & Hrun).
    apply bind_Ok_inv in Hrun as (rest & Hrest & Hrun).
    injection Hrun as <-. destruct (IH rest Hrest) as [Hkeys Hcount].
    split; [cbn [map period fst]; congruence|].
    intros Hne. apply Forall_cons in Hne as [Hm Hne].
    constructor; [|exact (Hcount Hne)].
    cbn [averages]. rewrite (calculate_averages_count _ _ Ha).
    cbn [snd] in Hm. destruct metrics; [contradiction | cbn; lia].
Qed.

Lemma period_results_well_formed (d : gmap string (list Metrics))
    (res : list PeriodSummary) :
  nonempty_lists d -> period_results d = Ok res -> well_formed_periods res.
Proof.
  intros Hd Hrun. unfold period_results in Hrun.
  apply summarise_spec in Hrun as [Hkeys Hcount].
  assert (StronglySorted str_lt (map period res)) as Hsorted.
  { rewrite Hkeys. apply sorted_strict. apply NoDup_fst_map_to_list. }
  split; [|split].
  - apply Hcount.
    destruct (sorted_ascending fst (map_to_list d)) as [Hperm _].
    rewrite Hperm. apply map_Forall_to_list in Hd.
    eapply Forall_impl; [exact Hd|]. intros [k l] Hl. exact Hl.
  - exact Hsorted.
  - rewrite Hkeys.
    destruct (sorted_ascending fst (map_to_list d)) as [Hperm _].
    rewrite Hperm. apply NoDup_fst_map_to_list.
Qed.

(** C10: whatever the issues and the date filters, each of the four lists
    returned by the aggregator holds only summaries that count at least one
    ticket, and lists its period keys in strictly ascending order, hence
    without a repetition. *)
Theorem aggregated_periods_nonempty_and_ascending
    (clock : nat -> datetime) (issues : list Issue)
    (start_date end_date : option datetime) (res : Aggregated) :
  aggregate_metrics_by_period clock issues start_date end_date = Ok res ->
  Forall well_formed_periods (period_lists res).
Proof.
  intros Hrun. unfold aggregate_metrics_by_period in Hrun.
  apply bind_Ok_inv in Hrun as (b & Hb & Hrun).
  apply aggregate_issues_nonempty in Hb as (Hy & Hm & Hw & Hd);
    [|repeat split; apply map_Forall_empty].
  apply bind_Ok_inv in Hrun as (ly & Hly & Hrun).
  apply bind_Ok_inv in Hrun as (lm & Hlm & Hrun).
  apply bind_Ok_inv in Hrun as (lw & Hlw & Hrun).
  apply bind_Ok_inv in Hrun as (ld & Hld & Hrun).
  injection Hrun as <-. unfold period_lists. cbn.
  repeat (apply List.Forall_cons;
          [eapply period_results_well_formed; [|eassumption]; assumption|]).
  apply List.Forall_nil.
Qed.

Lemma aggregated_periods_nonempty_and_ascending_witness :
  Forall well_formed_periods (period_lists sample_result).
Proof.
  apply (aggregated_periods_nonempty_and_ascending
           sample_clock sample_issues None None sample_result).
  vm_compute. reflexivity.
Defined.

Example sample_result_periods :
  map period (yearly sample_result) = ["2023"; "2024"]
  /\ map period (weekly sample_result) = ["2022-W52"; "2024-W01"; "2024-W43"]
  /\ map (fun s => ticket_count (averages s)) (daily sample_result)
     = [1; 2; 1]%nat.
Proof. repeat split. Qed.

(** ** The order of processing *)

(* Parsing all timestamps first and accumulating afterwards gives what the
   loop gives, which parses as it goes. *)
Lemma acc_histories_events (is_target : option string -> bool)
    (hs : list History) :
  forall st : acc_state,
    acc_histories is_target hs st
    = evs ← parse_histories hs; Ok (acc_events is_target evs st).
Proof.
  induction hs as [|history hs IH]; intros st; [reflexivity|].
  cbn [acc_histories parse_histories].
  destruct (parse_jira_datetime (created history)) as [t|e]; [|reflexivity].
  cbn [mbind result_bind]. rewrite IH.
  destruct (parse_histories hs) as [evs|e]; reflexivity.
Qed.

Lemma total_seconds_le (a b : Z) :
  a <= b -> (Datetime.total_seconds a <= Datetime.total_seconds b)%Q.
Proof. intros Hab. unfold Datetime.total_seconds, Qle. cbn. lia. Qed.

(* A later reading of the clock never lowers the total. *)
Lemma close_interval_mono (st : acc_state) (now1 now2 : datetime) :
  Datetime.instant now1 <= Datetime.instant now2 ->
  (close_interval now1 st <= close_interval now2 st)%Q.
Proof.
  intros Hnow. unfold close_interval. destruct (fst st) as [s|].
  - apply Qplus_le_r. apply total_seconds_le. unfold Datetime.sub. lia.
  - apply Qle_refl.
Qed.

Lemma time_in_progress_monotone (changelog : Issue) (now1 now2 : datetime)
    (p1 p2 : Q) :
  Datetime.instant now1 <= Datetime.instant now2 ->
  calculate_time_in_progress now1 changelog = Ok p1 ->
  calculate_time_in_progress now2 changelog = Ok p2 ->
  (p1 <= p2)%Q.
Proof.
  unfold calculate_time_in_progress, acc_total. intros Hnow H1 H2.
  destruct (acc_histories is_in_progress _ _) as [st|e]; [|discriminate].
  cbn [mbind result_bind] in H1, H2.
  injection H1 as <-. injection H2 as <-.
  apply Qmult_le_compat_r; [|discriminate].
  apply close_interval_mono. exact Hnow.
Qed.

(** C1: the entries of [dst_issue] are given in the order of their instants
    (00:50, 01:10 and 08:00 UTC), and the code processes them in the order
    of their text, the exit before the entry.  The exit is lost and the
    interval stays open: at noon of 1 November the code answers 787/6 hours,
    where the events taken in the order of their instants give 1/3 hour. *)
Theorem dst_changelog_sorted_by_text :
  map created (sorted created (histories dst_issue))
  = [ "2024-10-27T02:10:00.000000+0100";
      "2024-10-27T02:50:00.000000+0200";
      "2024-10-27T09:00:00.000000+0100" ]
  /\ Datetime.instant dst_0250_summer < Datetime.instant dst_0210_winter
  /\ (exists p, calculate_time_in_progress (noon_utc 2024 11 1) dst_issue
                = Ok p /\ (p == 787 # 6)%Q)
  /\ (exists q, time_in_progress_chronological (noon_utc 2024 11 1) dst_issue
                = Ok q /\ (q == 1 # 3)%Q).
Proof.
  split; [reflexivity|]. split; [reflexivity|]. split.
  - eexists. split; [vm_compute; reflexivity | reflexivity].
  - eexists. split; [vm_compute; reflexivity | reflexivity].
Qed.

Lemma dst_open_issue_state :
  acc_histories is_in_progress (sorted created (histories dst_open_issue))
    (None, 0%Q)
  = Ok (Some dst_last_entry, (0 + (-1200000000 # 1000000))%Q).
Proof. vm_compute. reflexivity. Qed.

(** C8: [dst_open_issue] enters "In Progress" at 2024-10-28T09:00 +0100 and
    no entry of its changelog leaves the status afterwards, yet at every
    reading of the clock the code answers twenty minutes less than the time
    elapsed since that entry: the visit before it, processed in the order of
    the text, is counted as minus twenty minutes. *)
Theorem dst_open_interval_below_elapsed (now : datetime) :
  exists p,
    calculate_time_in_progress now dst_open_issue = Ok p
    /\ (p == Datetime.total_seconds (Datetime.sub now dst_last_entry) / 3600
             - (1 # 3))%Q
    /\ (p < Datetime.total_seconds (Datetime.sub now dst_last_entry) / 3600)%Q.
Proof.
  unfold calculate_time_in_progress, acc_total.
  rewrite dst_open_issue_state. cbn [mbind result_bind close_interval fst snd].
  eexists. split; [reflexivity|].
  set (x := Datetime.total_seconds (Datetime.sub now dst_last_entry)).
  assert (-1200000000 # 1000000 == - (1200))%Q as -> by reflexivity.
  split; [field|].
  unfold Qdiv. apply Qmult_lt_compat_r; [reflexivity | lra].
Qed.


Lemma dst_entered_issue_state :
  acc_histories is_in_progress (sorted created (histories dst_entered_issue))
    (None, 0%Q)
  = Ok (Some dst_0210_winter, 0%Q).
Proof. vm_compute. reflexivity. Qed.

(* An issue that entered the status at 00:50 UTC and never left it: the
   interval the code closes at [now] starts at the copy of 01:10 UTC, the
   first in the order of the text, twenty minutes after the entry. *)
Example dst_entered_issue_below_elapsed (now : datetime) :
  exists p,
    calculate_time_in_progress now dst_entered_issue = Ok p
    /\ (p < Datetime.total_seconds (Datetime.sub now dst_0250_summer) / 3600)%Q.
Proof.
  unfold calculate_time_in_progress, acc_total.
  rewrite dst_entered_issue_state.
  cbn [mbind result_bind close_interval fst snd].
  eexists. split; [reflexivity|].
  unfold Qdiv. apply Qmult_lt_compat_r; [reflexivity|].
  rewrite Qplus_0_l. unfold Datetime.total_seconds, Qlt. cbn [Qnum Qden].
  unfold Datetime.sub.
  assert (Datetime.instant dst_0250_summer < Datetime.instant dst_0210_winter)
    by reflexivity.
  lia.
Qed.

(** ** Events processed in the order of their instants

    The lower bound of the specification for an interval still open holds
    whenever the events are processed in the order of time: it holds for the
    accumulator of the specification on every changelog, and for the code on
    the changelogs whose text order is the order of time. *)

Section time_order.
Variable is_target : option string -> bool.

Lemma total_seconds_nonneg (a : Z) :
  0 <= a -> (0 <= Datetime.total_seconds a)%Q.
Proof. intros Ha. unfold Datetime.total_seconds, Qle. cbn. lia. Qed.

Lemma acc_inv_weaken (b b' : Z) (st : acc_state) :
  b <= b' -> acc_inv b st -> acc_inv b' st.
Proof.
  intros Hb [Htot Hstart]. split; [exact Htot|].
  intros s Hs. specialize (Hstart s Hs). lia.
Qed.

Lemma acc_item_inv (ts : datetime) (st : acc_state) (item : Item) :
  acc_inv (Datetime.instant ts) st ->
  acc_inv (Datetime.instant ts) (acc_item is_target ts st item).
Proof.
  intros [Htot Hstart]. destruct st as [start total]. cbn [fst snd] in *.
  unfold acc_item.
  destruct (negb (String.eqb (field item) "status")); [split; assumption|].
  destruct (is_target (toString item)).
  - destruct start as [s|]; [split; assumption|].
    split; [exact Htot|]. cbn [fst]. intros s [= <-]. lia.
  - destruct (is_target (fromString item)); [|split; assumption].
    destruct start as [s|]; [|split; assumption].
    split; cbn [fst snd]; [|discriminate].
    specialize (Hstart s eq_refl).
    assert (0 <= Datetime.total_seconds (Datetime.sub ts s))%Q
      by (apply total_seconds_nonneg; unfold Datetime.sub; lia).
    lra.
Qed.

Lemma acc_items_inv (ts : datetime) (its : list Item) :
  forall st : acc_state,
    acc_inv (Datetime.instant ts) st ->
    acc_inv (Datetime.instant ts) (foldl (acc_item is_target ts) st its).
Proof.
  induction its as [|item its IH]; intros st Hst; [exact Hst|].
  cbn [foldl]. apply IH. apply acc_item_inv. exact Hst.
Qed.

Lemma acc_events_cons (t : datetime) (its : list Item)
    (evs : list (datetime * list Item)) (st : acc_state) :
  acc_events is_target ((t, its) :: evs) st
  = acc_events is_target evs (foldl (acc_item is_target t) st its).
Proof. reflexivity. Qed.

Lemma acc_events_app (evs1 evs2 : list (datetime * list Item))
    (st : acc_state) :
  acc_events is_target (evs1 ++ evs2) st
  = acc_events is_target evs2 (acc_events is_target evs1 st).
Proof. unfold acc_events. apply foldl_app. Qed.

Lemma acc_events_inv (evs : list (datetime * list Item)) :
  forall (b bound : Z) (st : acc_state),
    in_time_order evs ->
    Forall (fun ev => b <= Datetime.instant (fst ev) <= bound) evs ->
    b <= bound ->
    acc_inv b st ->
    acc_inv bound (acc_events is_target evs st).
Proof.
  induction evs as [|[t its] evs IH]; intros b bound st Hord Hrange Hb Hst.
  - cbn. eapply acc_inv_weaken; eassumption.
  - apply StronglySorted_inv in Hord as [Hord Hfirst].
    apply Forall_cons in Hrange as [Ht Hrange]. cbn [fst] in Ht.
    rewrite acc_events_cons.
    apply (IH (Datetime.instant t)); [exact Hord | | lia |].
    + rewrite Forall_forall in Hrange, Hfirst. apply Forall_forall.
      intros ev Hev. specialize (Hrange ev Hev). specialize (Hfirst ev Hev).
      unfold instant_le in Hfirst. cbn [fst] in Hfirst. lia.
    + apply acc_items_inv. eapply acc_inv_weaken; [|exact Hst]. lia.
Qed.

(* Inside the status, an event that is not an exit changes nothing. *)
Lemma acc_item_no_exit_inside (ts : datetime) (st : acc_state) (item : Item) :
  is_Some (fst st) -> acts_as_exit is_target item = false ->
  acc_item is_target ts st item = st.
Proof.
  intros [s Hs] Hx. destruct st as [start total]. cbn [fst] in Hs.
  subst start. unfold acc_item, acts_as_exit in *.
  destruct (String.eqb (field item) "status"); [|reflexivity].
  destruct (is_target (toString item)); [reflexivity|].
  cbn in Hx. rewrite Hx. reflexivity.
Qed.

Lemma acc_items_no_exit_inside (ts : datetime) (its : list Item) :
  forall st : acc_state,
    is_Some (fst st) -> no_exit is_target its ->
    foldl (acc_item is_target ts) st its = st.
Proof.
  induction its as [|item its IH]; intros st Hin Hno; [reflexivity|].
  apply Forall_cons in Hno as [Hitem Hno]. cbn [foldl].
  rewrite acc_item_no_exit_inside by assumption. apply IH; assumption.
Qed.

Lemma acc_events_no_exit_inside (evs : list (datetime * list Item)) :
  forall st : acc_state,
    is_Some (fst st) ->
    Forall (fun ev => no_exit is_target (snd ev)) evs ->
    acc_events is_target evs st = st.
Proof.
  induction evs as [|ev evs IH]; intros st Hin Hno; [reflexivity|].
  apply Forall_cons in Hno as [Hev Hno]. destruct ev as [t its].
  rewrite acc_events_cons. cbn [snd] in Hev.
  rewrite acc_items_no_exit_inside by assumption.
  apply IH; assumption.
Qed.

(* The events are in the order of time, [entry] is an event into the status
   recorded at [t], and no exit follows it: the total is at least the time
   from [t] to [now]. *)
Lemma open_interval_lower_bound (now t : datetime)
    (pre post : list (datetime * list Item))
    (its_pre its_post : list Item) (entry : Item) :
  in_time_order (pre ++ (t, its_pre ++ entry :: its_post) :: post) ->
  is_entry is_target entry = true ->
  no_exit is_target its_post ->
  Forall (fun ev => no_exit is_target (snd ev)) post ->
  (Datetime.total_seconds (Datetime.sub now t)
   <= close_interval now
        (acc_events is_target
           (pre ++ (t, its_pre ++ entry :: its_post) :: post) (None, 0%Q)))%Q.
Proof.
  intros Hord Hentry Hits Hpost. unfold in_time_order in Hord.
  apply StronglySorted_app in Hord as (Hcross & Hpre & _).
  rewrite acc_events_app, acc_events_cons, foldl_app. cbn [foldl].
  set (st0 := acc_events is_target pre (None, 0%Q)).
  set (st1 := foldl (acc_item is_target t) st0 its_pre).
  assert (acc_inv (Datetime.instant t) st1) as Hst1.
  { apply acc_items_inv.
    destruct pre as [|ev0 pre'].
    - split; [apply Qle_refl | discriminate].
    - apply (acc_events_inv _ (Datetime.instant (fst ev0))).
      + exact Hpre.
      + apply StronglySorted_inv in Hpre as [_ Hev0].
        apply Forall_forall. intros ev Hev. split.
        * apply elem_of_cons in Hev as [->|Hev]; [lia|].
          rewrite Forall_forall in Hev0. exact (Hev0 ev Hev).
        * apply (Hcross ev (t, its_pre ++ entry :: its_post)); [exact Hev|].
          apply list_elem_of_here.
      + apply (Hcross ev0 (t, its_pre ++ entry :: its_post));
          [apply list_elem_of_here | apply list_elem_of_here].
      + split; [apply Qle_refl | discriminate]. }
  apply (acc_item_inv t st1 entry) in Hst1 as [Htot Hstart].
  pose proof (acc_item_entry_opens is_target t st1 entry Hentry) as Hopen.
  rewrite acc_items_no_exit_inside by assumption.
  rewrite acc_events_no_exit_inside by assumption.
  destruct Hopen as [s Hs]. unfold close_interval. rewrite Hs.
  specialize (Hstart s Hs).
  assert (Datetime.total_seconds (Datetime.sub now t)
          <= Datetime.total_seconds (Datetime.sub now s))%Q
    by (apply total_seconds_le; unfold Datetime.sub; lia).
  lra.
Qed.
End time_order.

(** ** The code against the accumulator of the specification *)

Lemma parse_histories_Ok (hs : list History) :
  Forall (fun h => exists t, parse_jira_datetime (created h) = Ok t) hs ->
  parse_histories hs = Ok (map parsed_event hs).
Proof.
  induction 1 as [|h hs [t Ht] _ IH]; [reflexivity|].
  cbn [parse_histories map]. unfold parsed_event at 1. rewrite Ht, IH.
  reflexivity.
Qed.

Lemma parse_histories_Ok_inv (hs : list History)
    (evs : list (datetime * list Item)) :
  parse_histories hs = Ok evs ->
  Forall (fun h => exists t, parse_jira_datetime (created h) = Ok t) hs.
Proof.
  revert evs. induction hs as [|h hs IH]; intros evs Hrun; [constructor|].
  cbn [parse_histories] in Hrun.
  apply bind_Ok_inv in Hrun as (t & Ht & Hrun).
  apply bind_Ok_inv in Hrun as (rest & Hrest & _).
  constructor; eauto.
Qed.

Lemma chronological_in_time_order (evs : list (datetime * list Item)) :
  in_time_order (chronological evs).
Proof.
  unfold in_time_order, chronological.
  assert (StronglySorted
            (key_le Z.ltb (fun ev => Datetime.instant (fst ev)))
            (sorted_by Z.ltb (fun ev => Datetime.instant (fst ev)) evs))
    as Hsorted by (apply sorted_by_sorted; intros; lia).
  induction Hsorted as [|ev l _ IH Hev]; constructor; [exact IH|].
  eapply Forall_impl; [exact Hev|].
  intros ev' Hle. unfold key_le in Hle. unfold instant_le. lia.
Qed.

(* Where the order of the text is the order of time, the code computes the
   total of the specification. *)
Lemma acc_total_chronological_agree (is_target : option string -> bool)
    (now : datetime) (changelog : Issue) (evs : list (datetime * list Item)) :
  parse_histories (histories changelog) = Ok evs ->
  text_order_is_time_order (histories changelog) ->
  acc_total is_target now changelog
  = acc_total_chronological is_target now changelog.
Proof.
  intros Hparse Hagree. unfold acc_total, acc_total_chronological.
  pose proof (parse_histories_Ok_inv _ _ Hparse) as Hall.
  rewrite acc_histories_events.
  rewrite (parse_histories_Ok (histories changelog)) by exact Hall.
  rewrite (parse_histories_Ok (sorted created (histories changelog))).
  - cbn [mbind result_bind]. unfold chronological, sorted.
    rewrite (sorted_by_map String.ltb created Z.ltb
               (fun ev => Datetime.instant (fst ev)) parsed_event)
      by exact Hagree.
    reflexivity.
  - unfold sorted.
    rewrite (sorted_by_perm String.ltb created (histories changelog)).
    exact Hall.
Qed.

(* The accumulator of the specification meets the lower bound of the
   specification on every changelog. *)
Lemma chronological_open_interval_lower_bound (now t : datetime)
    (changelog : Issue) (evs pre post : list (datetime * list Item))
    (its_pre its_post : list Item) (entry : Item) :
  parse_histories (histories changelog) = Ok evs ->
  chronological evs = pre ++ (t, its_pre ++ entry :: its_post) :: post ->
  is_entry is_in_progress entry = true ->
  no_exit is_in_progress its_post ->
  Forall (fun ev => no_exit is_in_progress (snd ev)) post ->
  exists p,
    time_in_progress_chronological now changelog = Ok p
    /\ (Datetime.total_seconds (Datetime.sub now t) / 3600 <= p)%Q.
Proof.
  intros Hparse Hsplit Hentry Hits Hpost.
  unfold time_in_progress_chronological, acc_total_chronological.
  rewrite Hparse. cbn [mbind result_bind]. eexists. split; [reflexivity|].
  apply Qmult_le_compat_r; [|discriminate].
  rewrite Hsplit. apply open_interval_lower_bound; try assumption.
  rewrite <- Hsplit. apply chronological_in_time_order.
Qed.

(* So does the code, on the changelogs it processes in the order of time. *)
Lemma text_order_open_interval_lower_bound (now t : datetime)
    (changelog : Issue) (pre post : list (datetime * list Item))
    (its_pre its_post : list Item) (entry : Item) :
  parse_histories (sorted created (histories changelog))
  = Ok (pre ++ (t, its_pre ++ entry :: its_post) :: post) ->
  in_time_order (pre ++ (t, its_pre ++ entry :: its_post) :: post) ->
  is_entry is_in_progress entry = true ->
  no_exit is_in_progress its_post ->
  Forall (fun ev => no_exit is_in_progress (snd ev)) post ->
  exists p,
    calculate_time_in_progress now changelog = Ok p
    /\ (Datetime.total_seconds (Datetime.sub now t) / 3600 <= p)%Q.
Proof.
  intros Hparse Hord Hentry Hits Hpost.
  unfold calculate_time_in_progress, acc_total.
  rewrite acc_histories_events, Hparse. cbn [mbind result_bind].
  eexists. split; [reflexivity|].
  apply Qmult_le_compat_r; [|discriminate].
  apply open_interval_lower_bound; assumption.
Qed.

(* The entries of [dst_open_issue] in the order of their text are not in the
   order of time. *)
Example dst_open_issue_out_of_time_order :
  parse_histories (sorted created (histories dst_open_issue))
  = Ok [ (dst_0210_winter, [status_change (Some "In Review")
                              (Some "In Progress")]);
         (dst_0250_summer, [status_change (Some "In Progress")
                              (Some "In Review")]);
         (dst_last_entry, [status_change (Some "In Review")
                             (Some "In Progress")]) ]
  /\ Datetime.instant dst_0250_summer < Datetime.instant dst_0210_winter.
Proof. split; vm_compute; reflexivity. Qed.


(** ** The aggregator returns on well-formed issues *)

Lemma acc_total_returns (is_target : option string -> bool) (now : datetime)
    (issue : Issue) :
  timestamps_parse issue -> exists total, acc_total is_target now issue = Ok total.
Proof.
  intros [_ Hall]. unfold acc_total. rewrite acc_histories_events.
  rewrite (parse_histories_Ok (sorted created (histories issue))).
  - eexists. reflexivity.
  - unfold sorted.
    rewrite (sorted_by_perm String.ltb created (histories issue)).
    exact Hall.
Qed.

Lemma completion_date_returns (hs : list History) :
  Forall (fun h => exists t, parse_jira_datetime (created h) = Ok t) hs ->
  exists d, get_issue_completion_date_from hs = Ok d.
Proof.
  induction 1 as [|h hs [t Ht] _ IH]; cbn [get_issue_completion_date_from].
  - eexists. reflexivity.
  - destruct (existsb is_done_item (items h)); [|exact IH].
    rewrite Ht. eexists. reflexivity.
Qed.




(** * Further properties of the code *)

(** ** Malformed timestamps *)



Lemma calculate_lead_time_Ok_inv (issue : Issue) (lead : option Q) :
  calculate_lead_time issue = Ok lead ->
  exists c, parse_jira_datetime (fields_created issue) = Ok c.
Proof.
  unfold calculate_lead_time. intros Hrun.
  apply bind_Ok_inv in Hrun as (c & Hc & _). eauto.
Qed.

Lemma calculators_return (now1 now2 : datetime) (issue : Issue) :
  timestamps_parse issue ->
  exists p r lead,
    calculate_time_in_progress now1 issue = Ok p
    /\ calculate_time_in_review now2 issue = Ok r
    /\ calculate_lead_time issue = Ok lead.
Proof.
  intros Hissue. unfold calculate_time_in_progress, calculate_time_in_review.
  destruct (acc_total_returns is_in_progress now1 issue Hissue) as [tp ->].
  destruct (acc_total_returns is_in_review now2 issue Hissue) as [tr ->].
  destruct Hissue as [[c Hc] Hall].
  rewrite (calculate_lead_time_unfold issue c Hc).
  unfold get_issue_completion_date.
  destruct (completion_date_returns _ Hall) as [d ->].
  cbn [mbind result_bind].
  exists (tp / 3600)%Q,
    (if Qle_bool 3600 tr then tr / 3600 else tr / 60)%Q.
  destruct (Qle_bool 3600 tr); destruct d; eauto.
Qed.




(** ** Issues that are not done *)

Lemma lead_time_None_of_never_done (issue : Issue) :
  (exists c, parse_jira_datetime (fields_created issue) = Ok c) ->
  ~ has_done_event issue ->
  calculate_lead_time issue = Ok None.
Proof.
  intros [c Hc] Hno. rewrite (calculate_lead_time_unfold issue c Hc).
  unfold get_issue_completion_date.
  apply no_done_event_iff, completion_None_iff in Hno. rewrite Hno.
  reflexivity.
Qed.

Lemma aggregate_issues_never_done (clock : nat -> datetime)
    (start_date end_date : option datetime) (issues : list Issue) :
  Forall timestamps_parse issues ->
  Forall (fun issue => ~ has_done_event issue) issues ->
  forall (n : nat) (b : Buckets),
    aggregate_issues clock n start_date end_date issues b = Ok b.
Proof.
  induction 1 as [|issue rest Hissue _ IH]; intros Hno n b; [reflexivity|].
  apply Forall_cons in Hno as [Hno Hrest]. cbn [aggregate_issues].
  destruct (calculators_return (clock (2 * n)%nat) (clock (2 * n + 1)%nat)
              issue Hissue) as (p & r & lead & -> & -> & _).
  rewrite (lead_time_None_of_never_done issue (proj1 Hissue) Hno).
  cbn [mbind result_bind]. apply IH. exact Hrest.
Qed.

Lemma period_results_empty : period_results ∅ = Ok [].
Proof. unfold period_results. rewrite map_to_list_empty. reflexivity. Qed.

(** X3: when no issue of the input has reached "Done", the aggregator
    returns four empty lists, whatever time the issues spent in progress or
    in review and whatever the date filter: unfinished work never shows in
    the period breakdown. *)
Theorem unfinished_issues_are_not_aggregated (clock : nat -> datetime)
    (issues : list Issue) (start_date end_date : option datetime) :
  Forall timestamps_parse issues ->
  Forall (fun issue => ~ has_done_event issue) issues ->
  aggregate_metrics_by_period clock issues start_date end_date
  = Ok (Build_Aggregated [] [] [] []).
Proof.
  intros Hparse Hno. unfold aggregate_metrics_by_period.
  rewrite (aggregate_issues_never_done _ _ _ _ Hparse Hno).
  cbn [mbind result_bind yearly_metrics monthly_metrics weekly_metrics
       daily_metrics].
  rewrite period_results_empty. reflexivity.
Qed.

Lemma unfinished_issues_are_not_aggregated_witness :
  aggregate_metrics_by_period sample_clock [dst_open_issue; dst_entered_issue]
    None (Some (noon_utc 2025 1 1))
  = Ok (Build_Aggregated [] [] [] []).
Proof.
  apply unfinished_issues_are_not_aggregated.
  - repeat constructor; try (eexists; vm_compute; reflexivity).
  - repeat constructor;
      intros (h & item & Hh & Hi & _ & Ht); cbn in Hh;
      repeat (destruct Hh as [<-|Hh]; [cbn in Hi; destruct Hi as [<-|[]];
                                        discriminate Ht|]);
      destruct Hh.
Defined.

(** ** One bucket per issue and granularity *)

Lemma bucket_size_empty : bucket_size ∅ = 0%nat.
Proof. unfold bucket_size. rewrite map_to_list_empty. reflexivity. Qed.

Lemma bucket_size_insert_fresh (k : string) (l : list Metrics)
    (d : gmap string (list Metrics)) :
  d !! k = None ->
  bucket_size (<[k := l]> d) = (List.length l + bucket_size d)%nat.
Proof.
  intros Hk. unfold bucket_size.
  rewrite (map_to_list_insert d k l Hk). reflexivity.
Qed.

Lemma bucket_size_append (k : string) (m : Metrics)
    (d : gmap string (list Metrics)) :
  bucket_size (bucket_append k m d) = S (bucket_size d).
Proof.
  unfold bucket_append. destruct (d !! k) as [l|] eqn:Hk; cbn [default].
  - rewrite <- (insert_delete_eq d k (l ++ [m])).
    rewrite bucket_size_insert_fresh by apply lookup_delete_eq.
    rewrite <- (insert_delete_id d k l Hk) at 2.
    rewrite bucket_size_insert_fresh by apply lookup_delete_eq.
    rewrite length_app. cbn. lia.
  - rewrite bucket_size_insert_fresh by exact Hk. reflexivity.
Qed.

Lemma aggregate_issues_sizes (clock : nat -> datetime)
    (start_date end_date : option datetime) (issues : list Issue) :
  forall (n c : nat) (b b' : Buckets),
    aggregate_issues clock n start_date end_date issues b = Ok b' ->
    bucket_size (yearly_metrics b) = c ->
    bucket_size (monthly_metrics b) = c ->
    bucket_size (weekly_metrics b) = c ->
    bucket_size (daily_metrics b) = c ->
    exists c',
      (c <= c' <= c + List.length issues)%nat
      /\ bucket_size (yearly_metrics b') = c'
      /\ bucket_size (monthly_metrics b') = c'
      /\ bucket_size (weekly_metrics b') = c'
      /\ bucket_size (daily_metrics b') = c'.
Proof.
  induction issues as [|issue rest IH]; intros n c b b' Hrun Hy Hm Hw Hd.
  - cbn [aggregate_issues] in Hrun. injection Hrun as <-.
    exists c. cbn. repeat split; (assumption || lia).
  - assert (forall b1,
              aggregate_issues clock (S n) start_date end_date rest b1 = Ok b' ->
              b1 = b ->
              exists c',
                (c <= c' <= c + List.length (issue :: rest))%nat
                /\ bucket_size (yearly_metrics b') = c'
                /\ bucket_size (monthly_metrics b') = c'
                /\ bucket_size (weekly_metrics b') = c'
                /\ bucket_size (daily_metrics b') = c') as Hskip.
    { intros b1 Hb1 ->.
      destruct (IH _ c _ _ Hb1 Hy Hm Hw Hd) as (c' & Hc' & Hrest).
      exists c'. split; [cbn [List.length]; lia | exact Hrest]. }
    cbn [aggregate_issues] in Hrun.
    apply bind_Ok_inv in Hrun as (p & _ & Hrun).
    apply bind_Ok_inv in Hrun as (r & _ & Hrun).
    apply bind_Ok_inv in Hrun as ([lead|] & _ & Hrun); [|eauto].
    apply bind_Ok_inv in Hrun as (created_date & _ & Hrun).
    apply bind_Ok_inv in Hrun as ([completion|] & _ & Hrun); [|eauto].
    destruct (match start_date with
              | Some sd => Datetime.ltb completion sd
              | None => false
              end); [eauto|].
    destruct (match end_date with
              | Some ed => Datetime.gtb completion ed
              | None => false
              end); [eauto|].
    assert (forall d k m,
              bucket_size d = c -> bucket_size (bucket_append k m d) = S c)
      as Happ by (intros d k m Hsize; rewrite bucket_size_append; congruence).
    destruct (IH _ (S c) _ _ Hrun (Happ _ _ _ Hy) (Happ _ _ _ Hm)
                (Happ _ _ _ Hw) (Happ _ _ _ Hd)) as (c' & Hc' & Hrest).
    exists c'. split; [cbn [List.length]; lia | exact Hrest].
Qed.

Lemma summarise_total (l : list (string * list Metrics)) :
  forall res : list PeriodSummary,
    summarise l = Ok res ->
    total_tickets res = sum_list (map (fun kv => List.length (snd kv)) l).
Proof.
  induction l as [|[p metrics] l IH]; intros res Hrun.
  - injection Hrun as <-. reflexivity.
  - cbn [summarise] in Hrun.
    apply bind_Ok_inv in Hrun as (a & Ha & Hrun).
    apply bind_Ok_inv in Hrun as (rest & Hrest & Hrun).
    injection Hrun as <-. unfold total_tickets in *.
    cbn [map sum_list_with averages snd]. unfold id at 1 3.
    rewrite (calculate_averages_count _ _ Ha), (IH rest Hrest). reflexivity.
Qed.

Lemma period_results_total (d : gmap string (list Metrics))
    (res : list PeriodSummary) :
  period_results d = Ok res -> total_tickets res = bucket_size d.
Proof.
  intros Hrun. unfold period_results in Hrun.
  apply summarise_total in Hrun. rewrite Hrun. unfold bucket_size, sorted.
  rewrite (sorted_by_perm String.ltb fst (map_to_list d)). reflexivity.
Qed.

Lemma aggregate_totals (clock : nat -> datetime) (issues : list Issue)
    (start_date end_date : option datetime) (res : Aggregated) :
  aggregate_metrics_by_period clock issues start_date end_date = Ok res ->
  exists c,
    (c <= List.length issues)%nat
    /\ total_tickets (yearly res) = c /\ total_tickets (monthly res) = c
    /\ total_tickets (weekly res) = c /\ total_tickets (daily res) = c.
Proof.
  intros Hrun. unfold aggregate_metrics_by_period in Hrun.
  apply bind_Ok_inv in Hrun as (b & Hb & Hrun).
  apply (aggregate_issues_sizes _ _ _ _ _ 0%nat) in Hb
    as (c & Hc & Hy & Hm & Hw & Hd); try apply bucket_size_empty.
  apply bind_Ok_inv in Hrun as (ly & Hly & Hrun).
  apply bind_Ok_inv in Hrun as (lm & Hlm & Hrun).
  apply bind_Ok_inv in Hrun as (lw & Hlw & Hrun).
  apply bind_Ok_inv in Hrun as (ld & Hld & Hrun).
  injection Hrun as <-. cbn [yearly monthly weekly daily].
  rewrite (period_results_total _ _ Hly), (period_results_total _ _ Hlm),
    (period_results_total _ _ Hlw), (period_results_total _ _ Hld).
  exists c. repeat split; (assumption || lia).
Qed.



(** ** The date filter *)

Lemma ensure_timezone_aware_idem (dt : option datetime) :
  ensure_timezone_aware (ensure_timezone_aware dt) = ensure_timezone_aware dt.
Proof.
  destruct dt as [d|]; [|reflexivity]. cbn [ensure_timezone_aware].
  destruct (Datetime.utcoffset d) eqn:Ho; cbn [ensure_timezone_aware].
  - rewrite Ho. reflexivity.
  - reflexivity.
Qed.

(** X5: making a filter bound timezone-aware changes nothing when done
    twice, leaves an aware bound as it is, and turns a naive bound into the
    aware datetime with the same clock reading at UTC; the aggregator
    therefore treats a naive bound as the same reading at UTC. *)
Theorem naive_filter_bounds_are_utc :
  (forall dt, ensure_timezone_aware (ensure_timezone_aware dt)
              = ensure_timezone_aware dt)
  /\ (forall d d', ensure_timezone_aware (Some d) = Some d' ->
        exists o, Datetime.utcoffset d' = Some o
                  /\ Datetime.local_micros d' = Datetime.local_micros d
                  /\ (Datetime.utcoffset d = None ->
                      o = 0 /\ Datetime.instant d' = Datetime.local_micros d)
                  /\ (Datetime.utcoffset d <> None -> d' = d))
  /\ (forall clock issues start_date end_date,
        aggregate_metrics_by_period clock issues start_date end_date
        = aggregate_metrics_by_period clock issues
            (ensure_timezone_aware start_date)
            (ensure_timezone_aware end_date)).
Proof.
  split; [exact ensure_timezone_aware_idem|]. split.
  - intros d d' Hd. cbn [ensure_timezone_aware] in Hd.
    destruct (Datetime.utcoffset d) as [o|] eqn:Ho; injection Hd as <-.
    + exists o. repeat split; try assumption; congruence.
    + exists 0. repeat split; try congruence.
      unfold Datetime.instant. cbn [Datetime.utcoffset].
      unfold Datetime.local_micros, Datetime.toordinal. cbn. lia.
  - intros clock issues start_date end_date.
    unfold aggregate_metrics_by_period.
    rewrite !ensure_timezone_aware_idem. reflexivity.
Qed.

Lemma in_window_spec (start_date end_date : option datetime)
    (completion : datetime) :
  in_window start_date end_date completion = true
  <-> (forall sd, start_date = Some sd ->
         Datetime.instant sd <= Datetime.instant completion)
      /\ (forall ed, end_date = Some ed ->
            Datetime.instant completion <= Datetime.instant ed).
Proof.
  unfold in_window, Datetime.ltb, Datetime.gtb.
  rewrite andb_true_iff, !negb_true_iff.
  destruct start_date as [sd|], end_date as [ed|];
    rewrite ?Z.ltb_ge; split.
  all: try (intros [Hs He]; split; [intros ? [= <-] | intros ? [= <-]];
            assumption).
  all: try (intros [Hs He]; split; eauto; fail).
  all: try (intros [Hs He]; split; [intros ? [= <-] | intros ? [=]];
            assumption).
  all: try (intros [Hs He]; split; [intros ? [=] | intros ? [= <-]];
            assumption).
  all: try (intros _; split; intros ? [=]).
  all: try (intros _; split; reflexivity).
Qed.

Lemma period_results_singleton (k : string) (m : Metrics) (a : Averages) :
  calculate_averages [m] = Ok a ->
  period_results (bucket_append k m ∅) = Ok [Build_PeriodSummary k a].
Proof.
  intros Ha. unfold period_results, bucket_append.
  rewrite lookup_empty. cbn [default app].
  rewrite insert_empty, map_to_list_singleton.
  cbn [sorted sorted_by foldr insert_by summarise]. unfold sorted, sorted_by.
  cbn [foldr insert_by summarise]. rewrite Ha. reflexivity.
Qed.

(** X6: the aggregation of a single finished issue.  The date filter keeps
    the issue exactly when its completion instant is neither before the start
    bound nor after the end bound, the bounds included; a kept issue yields,
    in each of the four lists, one summary under the period key of its
    completion date, holding the averages of the record that the ticket
    endpoint returns for it; an issue filtered out yields four empty lists. *)
Theorem single_issue_aggregate (clock : nat -> datetime) (issue : Issue)
    (start_date end_date : option datetime) (m : Metrics) (d : datetime)
    (a : Averages) :
  get_ticket_metrics clock (key issue) issue = Ok m ->
  get_issue_completion_date issue = Ok (Some d) ->
  calculate_averages [m] = Ok a ->
  let sd := ensure_timezone_aware start_date in
  let ed := ensure_timezone_aware end_date in
  (in_window sd ed d = true
   <-> (forall s, sd = Some s -> Datetime.instant s <= Datetime.instant d)
       /\ (forall e, ed = Some e -> Datetime.instant d <= Datetime.instant e))
  /\ aggregate_metrics_by_period clock [issue] start_date end_date
     = Ok (if in_window sd ed d
           then Build_Aggregated
                  [Build_PeriodSummary (format_period_key d "yearly") a]
                  [Build_PeriodSummary (format_period_key d "monthly") a]
                  [Build_PeriodSummary (format_period_key d "weekly") a]
                  [Build_PeriodSummary (format_period_key d "daily") a]
           else Build_Aggregated [] [] [] []).
Proof.
  intros Hm Hd Ha sd ed. split; [apply in_window_spec|].
  unfold get_ticket_metrics in Hm.
  apply bind_Ok_inv in Hm as (p & Hp & Hm).
  apply bind_Ok_inv in Hm as (r & Hr & Hm).
  apply bind_Ok_inv in Hm as (lead & Hlead & Hm).
  injection Hm as <-.
  destruct (calculate_lead_time_Ok_inv _ _ Hlead) as [c Hc].
  rewrite (calculate_lead_time_unfold issue c Hc), Hd in Hlead.
  injection Hlead as <-.
  unfold aggregate_metrics_by_period. fold sd ed.
  cbn [aggregate_issues Nat.mul Nat.add]. rewrite Hp, Hr.
  rewrite (calculate_lead_time_unfold issue c Hc), Hd.
  unfold get_issue_creation_date. rewrite Hc.
  cbn [mbind result_bind]. unfold in_window.
  destruct (match sd with
            | Some sd0 => Datetime.ltb d sd0
            | None => false
            end).
  - cbn [negb andb mbind result_bind yearly_metrics monthly_metrics
         weekly_metrics daily_metrics].
    rewrite period_results_empty. reflexivity.
  - destruct (match ed with
              | Some ed0 => Datetime.gtb d ed0
              | None => false
              end).
    + cbn [negb andb mbind result_bind yearly_metrics monthly_metrics
           weekly_metrics daily_metrics].
      rewrite period_results_empty. reflexivity.
    + cbn [negb andb mbind result_bind yearly_metrics monthly_metrics
           weekly_metrics daily_metrics].
      rewrite !(period_results_singleton _ _ _ Ha). reflexivity.
Qed.

Lemma single_issue_aggregate_witness :
  aggregate_metrics_by_period sample_clock [sample_ticket]
    (Some (utc 2024 1 1 0 0)) None
  = Ok (Build_Aggregated
          [Build_PeriodSummary "2024" sample_ticket_averages]
          [Build_PeriodSummary "2024-01" sample_ticket_averages]
          [Build_PeriodSummary "2024-W01" sample_ticket_averages]
          [Build_PeriodSummary "2024-01-05" sample_ticket_averages]).
Proof.
  assert (get_ticket_metrics sample_clock (key sample_ticket) sample_ticket
          = Ok sample_ticket_metrics) as Hm
    by (vm_compute; reflexivity).
  assert (get_issue_completion_date sample_ticket
          = Ok (Some sample_ticket_done)) as Hd
    by (vm_compute; reflexivity).
  assert (calculate_averages [sample_ticket_metrics]
          = Ok sample_ticket_averages) as Ha
    by (vm_compute; reflexivity).
  destruct (single_issue_aggregate sample_clock sample_ticket
              (Some (utc 2024 1 1 0 0)) None sample_ticket_metrics
              sample_ticket_done sample_ticket_averages Hm Hd Ha) as [_ H].
  rewrite H. vm_compute. reflexivity.
Defined.

(** ** The summaries of the project endpoints *)

Lemma filtered_summary_nonempty (m : Metrics) (l : list Metrics) :
  filtered_summary (m :: l) = calculate_averages (m :: l).
Proof. reflexivity. Qed.

Lemma round2_zero : (round2 0 == 0)%Q.
Proof. reflexivity. Qed.

(** X7: the summary that the filtered project endpoint computes in place is
    the summary of [calculate_averages]: equal to it on every non-empty
    list of tickets, and on the empty list the all-zero summary with count
    0 as well. *)
Theorem filtered_summary_is_calculate_averages (results : list Metrics) :
  exists a b,
    filtered_summary results = Ok a
    /\ calculate_averages results = Ok b
    /\ averages_equiv a b
    /\ (results <> [] -> a = b).
Proof.
  destruct results as [|m l].
  - do 2 eexists. split; [reflexivity|]. split; [reflexivity|].
    split; [|intros H; destruct H; reflexivity].
    repeat split; reflexivity.
  - rewrite filtered_summary_nonempty. unfold calculate_averages.
    destruct (average_ok (valid_values time_in_progress_hours (m :: l)))
      as [p ->].
    destruct (average_ok (valid_values time_in_review_hours (m :: l)))
      as [r ->].
    destruct (average_ok (valid_values lead_time_hours (m :: l))) as [d ->].
    do 2 eexists. split; [reflexivity|]. split; [reflexivity|].
    split; [|reflexivity]. repeat split; reflexivity.
Qed.

Lemma valid_values_all_truthy (get : Metrics -> option Q)
    (results : list Metrics) :
  Forall (fun m => truthy (get m) = true) results ->
  List.length (valid_values get results) = List.length results.
Proof.
  induction 1 as [|m l Hm _ IH]; [reflexivity|].
  unfold valid_values in *. cbn -[truthy]. rewrite Hm.
  destruct (get m) as [q|]; [|discriminate Hm].
  cbn -[truthy]. cbn -[truthy] in IH. rewrite IH. reflexivity.
Qed.

Lemma project_average_all_truthy (get : Metrics -> option Q)
    (m : Metrics) (l : list Metrics) :
  Forall (fun m => truthy (get m) = true) (m :: l) ->
  project_average get (m :: l) = average (valid_values get (m :: l)).
Proof.
  intros Hall. unfold project_average, average.
  rewrite <- (valid_values_all_truthy get (m :: l) Hall).
  destruct (valid_values get (m :: l)) as [|q valid] eqn:Hvalid;
    [|reflexivity].
  apply (f_equal (@List.length Q)) in Hvalid.
  rewrite (valid_values_all_truthy get (m :: l) Hall) in Hvalid.
  discriminate Hvalid.
Qed.

Lemma project_average_ok (get : Metrics -> option Q) (m : Metrics)
    (l : list Metrics) :
  exists q, project_average get (m :: l) = Ok q.
Proof.
  unfold project_average, py_div.
  destruct (Qeq_bool _ _) eqn:Hz; [|eexists; reflexivity].
  apply Qeq_bool_eq in Hz. unfold Qeq in Hz. cbn in Hz. lia.
Qed.

Lemma project_summary_ok (results : list Metrics) :
  exists a, project_summary results = Ok a
            /\ ticket_count a = List.length results.
Proof.
  destruct results as [|m l]; [eexists; split; reflexivity|].
  unfold project_summary.
  destruct (project_average_ok time_in_progress_hours m l) as [p ->].
  destruct (project_average_ok time_in_review_hours m l) as [r ->].
  destruct (project_average_ok lead_time_hours m l) as [d ->].
  eexists. split; reflexivity.
Qed.

(** X8: the summary of the unfiltered project endpoint never divides by
    zero and counts every ticket; it divides each sum of non-zero values by
    the number of all tickets, so it is the summary of the filtered
    endpoint whenever every ticket has a non-zero value for each of the
    three metrics. *)
Theorem project_summary_agrees_on_complete_tickets :
  (forall results : list Metrics,
     exists a, project_summary results = Ok a
               /\ ticket_count a = List.length results)
  /\ (forall results : list Metrics,
        Forall (fun m => truthy (time_in_progress_hours m) = true
                         /\ truthy (time_in_review_hours m) = true
                         /\ truthy (lead_time_hours m) = true) results ->
        project_summary results = filtered_summary results).
Proof.
  split.
  - intros results. destruct (project_summary_ok results) as (a & Ha & Hc).
    exists a. split; assumption.
  - intros [|m l] Hall; [reflexivity|].
    unfold project_summary, filtered_summary.
    rewrite !project_average_all_truthy; [reflexivity | | |];
      (eapply Forall_impl; [exact Hall|]; intros m' (H1 & H2 & H3);
       assumption).
Qed.

Lemma project_summary_agrees_on_complete_tickets_witness :
  let results :=
    [ Build_Metrics "K-1" (Some 24%Q) (Some 48%Q) (Some 96%Q);
      Build_Metrics "K-2" (Some 6%Q) (Some 30%Q) (Some 40%Q) ] in
  project_summary results = filtered_summary results.
Proof.
  intros results.
  apply (proj2 project_summary_agrees_on_complete_tickets results).
  repeat constructor.
Defined.

(* One ticket of two has spent no time in review: the unfiltered endpoint
   halves the average that the filtered endpoint reports. *)
Example project_summary_counts_zero_values :
  let results :=
    [ Build_Metrics "K-1" (Some 24%Q) (Some 48%Q) (Some 96%Q);
      Build_Metrics "K-2" (Some 6%Q) (Some 0%Q) None ] in
  exists a b,
    project_summary results = Ok a /\ filtered_summary results = Ok b
    /\ (avg_time_in_review_hours a == 24)%Q
    /\ (avg_time_in_review_hours b == 48)%Q
    /\ (avg_lead_time_hours a == 48)%Q
    /\ (avg_lead_time_hours b == 96)%Q.
Proof.
  intros results. do 2 eexists.
  split; [vm_compute; reflexivity|]. split; [vm_compute; reflexivity|].
  repeat split; reflexivity.
Qed.

(** ** The project endpoints *)

Lemma collect_metrics_length (clock : nat -> datetime)
    (found : list (string * Issue)) :
  forall (n : nat) (results : list Metrics),
    collect_metrics clock n found = Ok results ->
    List.length results = List.length found.
Proof.
  induction found as [|[k issue] rest IH]; intros n results Hrun.
  - injection Hrun as <-. reflexivity.
  - cbn [collect_metrics] in Hrun.
    apply bind_Ok_inv in Hrun as (p & _ & Hrun).
    apply bind_Ok_inv in Hrun as (r & _ & Hrun).
    apply bind_Ok_inv in Hrun as (lead & _ & Hrun).
    apply bind_Ok_inv in Hrun as (rest' & Hrest & Hrun).
    injection Hrun as <-. cbn [List.length]. rewrite (IH _ _ Hrest).
    reflexivity.
Qed.


Lemma filtered_summary_ok (results : list Metrics) :
  exists a, filtered_summary results = Ok a
            /\ ticket_count a = List.length results.
Proof.
  destruct results as [|m l]; [eexists; split; reflexivity|].
  unfold filtered_summary.
  destruct (average_ok (valid_values time_in_progress_hours (m :: l)))
    as [p ->].
  destruct (average_ok (valid_values time_in_review_hours (m :: l)))
    as [r ->].
  destruct (average_ok (valid_values lead_time_hours (m :: l))) as [d ->].
  eexists. split; reflexivity.
Qed.


(** X10: the answer of the filtered endpoint lists one ticket per issue
    found and its summary counts them all, finished or not; the period
    breakdown is present exactly when a period other than ALL is asked for
    and an issue was found, it holds all four lists whichever period is
    asked for, and it counts at most as many tickets as the summary. *)
Theorem filtered_response_shape (clock : nat -> datetime)
    (assignee : option string) (start_date end_date : option datetime)
    (period_type : PeriodType) (found : list (string * Issue))
    (response : MetricsResponse) :
  get_filtered_project_metrics clock assignee start_date end_date period_type
    found = Ok response ->
  List.length (tickets response) = List.length found
  /\ ticket_count (summary_averages (summary response)) = List.length found
  /\ (time_based_metrics response = None
      <-> period_type = ALL \/ found = [])
  /\ (forall agg, time_based_metrics response = Some agg ->
        (total_tickets (yearly agg) <= List.length found)%nat
        /\ total_tickets (monthly agg) = total_tickets (yearly agg)
        /\ total_tickets (weekly agg) = total_tickets (yearly agg)
        /\ total_tickets (daily agg) = total_tickets (yearly agg))
  /\ (forall other : PeriodType,
        other <> ALL -> period_type <> ALL ->
        get_filtered_project_metrics clock assignee start_date end_date
          other found = Ok response).
Proof.
  unfold get_filtered_project_metrics. intros Hrun.
  apply bind_Ok_inv in Hrun as (results & Hresults & Hrun).
  rewrite Hresults. cbn [mbind result_bind].
  destruct (filtered_summary_ok results) as (a & Ha & Hcount).
  rewrite Ha in Hrun |- *. cbn [mbind result_bind] in Hrun |- *.
  pose proof (collect_metrics_length _ _ _ _ Hresults) as Hlen.
  assert (Nat.eqb (List.length (map snd found)) 0 = true <-> found = [])
    as Hempty.
  { rewrite length_map, Nat.eqb_eq. destruct found; cbn; split;
      intros H; try reflexivity; discriminate H. }
  assert (is_all period_type = true <-> period_type = ALL) as Hall
    by (destruct period_type; cbn; split; intros H; try reflexivity;
        discriminate H).
  destruct (is_all period_type) eqn:Hp;
    [|destruct (Nat.eqb (List.length (map snd found)) 0) eqn:He];
    cbn [negb andb] in Hrun.
  - injection Hrun as <-.
    cbn [tickets summary summary_averages time_based_metrics].
    refine (conj Hlen (conj _ (conj _ (conj _ _)))).
    + congruence.
    + split; [intros _; left; apply Hall; reflexivity | reflexivity].
    + intros agg [=].
    + intros other _ Hne. contradict Hne. apply Hall. reflexivity.
  - injection Hrun as <-.
    cbn [tickets summary summary_averages time_based_metrics].
    refine (conj Hlen (conj _ (conj _ (conj _ _)))).
    + congruence.
    + split; [intros _; right; apply Hempty; reflexivity | reflexivity].
    + intros agg [=].
    + intros other _ _. destruct (is_all other); reflexivity.
  - apply bind_Ok_inv in Hrun as (agg & Hagg & Hrun).
    injection Hrun as <-.
    cbn [tickets summary summary_averages time_based_metrics].
    destruct (aggregate_totals _ _ _ _ _ Hagg)
      as (c & Hle & Hy & Hm & Hw & Hd).
    rewrite length_map in Hle.
    refine (conj Hlen (conj _ (conj _ (conj _ _)))).
    + congruence.
    + split; [intros [=]|].
      intros [H|H]; [apply Hall in H | apply Hempty in H]; discriminate H.
    + intros agg' [= <-]. rewrite Hy, Hm, Hw, Hd.
      repeat split; try reflexivity. exact Hle.
    + intros other Ho _.
      assert (is_all other = false) as ->
        by (destruct other; try reflexivity; contradiction).
      cbn [negb andb]. rewrite Hagg. reflexivity.
Qed.

Lemma filtered_response_shape_witness :
  List.length (tickets sample_response) = List.length sample_found
  /\ ticket_count (summary_averages (summary sample_response))
     = List.length sample_found
  /\ get_filtered_project_metrics sample_clock None None None WEEKLY
       sample_found = Ok sample_response.
Proof.
  assert (get_filtered_project_metrics sample_clock None None None MONTHLY
            sample_found = Ok sample_response) as H
    by (vm_compute; reflexivity).
  destruct (filtered_response_shape sample_clock None None None MONTHLY
              sample_found sample_response H) as (H1 & H2 & _ & _ & H5).
  split; [exact H1|]. split; [exact H2|].
  apply H5; discriminate.
Defined.


(** ** What the accumulators read *)

Section relevant_items.
Variable is_target : option string -> bool.

Lemma acc_item_not_status (ts : datetime) (st : acc_state) (item : Item) :
  String.eqb (field item) "status" = false ->
  acc_item is_target ts st item = st.
Proof.
  intros Hf. unfold acc_item. rewrite Hf. destruct st. reflexivity.
Qed.

Lemma acc_items_status (ts : datetime) (its : list Item) :
  forall st : acc_state,
    foldl (acc_item is_target ts) st (status_items its)
    = foldl (acc_item is_target ts) st its.
Proof.
  induction its as [|item its IH]; intros st; [reflexivity|].
  unfold status_items in *. cbn [List.filter foldl].
  destruct (String.eqb (field item) "status") eqn:Hf.
  - cbn [foldl]. apply IH.
  - rewrite (acc_item_not_status ts st item Hf). apply IH.
Qed.

Lemma acc_total_status_only (now : datetime) (issue : Issue) :
  acc_total is_target now (status_only issue) = acc_total is_target now issue.
Proof.
  unfold acc_total, status_only, sorted. cbn [histories].
  rewrite (sorted_by_map String.ltb created String.ltb created)
    by reflexivity.
  f_equal. generalize (None : option datetime, 0%Q).
  induction (sorted_by String.ltb created (histories issue)) as [|h hs IH];
    intros st; [reflexivity|].
  cbn [map acc_histories created items].
  destruct (parse_jira_datetime (created h)) as [t|e]; [|reflexivity].
  cbn [mbind result_bind]. rewrite acc_items_status. apply IH.
Qed.

(* Outside the status, an item that is not an entry changes nothing. *)
Lemma acc_item_no_entry_outside (ts : datetime) (total : Q) (item : Item) :
  is_entry is_target item = false ->
  acc_item is_target ts (None, total) item = (None, total).
Proof.
  unfold is_entry, acc_item. intros He.
  destruct (String.eqb (field item) "status"); [|reflexivity].
  cbn in He. rewrite He. cbn.
  destruct (is_target (fromString item)); reflexivity.
Qed.

Lemma acc_items_no_entry_outside (ts : datetime) (total : Q)
    (its : list Item) :
  no_entry is_target its ->
  foldl (acc_item is_target ts) (None, total) its = (None, total).
Proof.
  induction 1 as [|item its Hitem _ IH]; [reflexivity|].
  cbn [foldl]. rewrite acc_item_no_entry_outside by exact Hitem. exact IH.
Qed.

Lemma acc_events_no_entry_outside (total : Q)
    (evs : list (datetime * list Item)) :
  Forall (fun ev => no_entry is_target (snd ev)) evs ->
  acc_events is_target evs (None, total) = (None, total).
Proof.
  induction 1 as [|[t its] evs Hev _ IH]; [reflexivity|].
  rewrite acc_events_cons. cbn [snd] in Hev.
  rewrite acc_items_no_entry_outside by exact Hev. exact IH.
Qed.

Lemma acc_total_never_enters (now : datetime) (issue : Issue) :
  Forall (fun h => exists t, parse_jira_datetime (created h) = Ok t)
    (histories issue) ->
  never_enters is_target issue ->
  acc_total is_target now issue = Ok 0%Q.
Proof.
  intros Hparse Hnever. unfold acc_total. rewrite acc_histories_events.
  assert (Permutation (sorted created (histories issue)) (histories issue))
    as Hperm by apply sorted_by_perm.
  rewrite (parse_histories_Ok (sorted created (histories issue)))
    by (rewrite Hperm; exact Hparse).
  cbn [mbind result_bind].
  rewrite acc_events_no_entry_outside; [reflexivity|].
  apply Forall_fmap. unfold never_enters in Hnever. rewrite Hperm.
  eapply Forall_impl; [exact Hnever|]. intros h Hh. exact Hh.
Qed.

(* Once outside for good, the accumulator stays outside. *)
Lemma acc_item_exit_leaves (ts : datetime) (st : acc_state) (item : Item) :
  acts_as_exit is_target item = true ->
  fst (acc_item is_target ts st item) = None.
Proof.
  unfold acts_as_exit, acc_item. intros Hx.
  apply andb_true_iff in Hx as [Hx Hfrom].
  apply andb_true_iff in Hx as [Hf Hto]. apply negb_true_iff in Hto.
  destruct st as [[s|] total]; rewrite Hf, Hto, Hfrom; reflexivity.
Qed.
End relevant_items.

Lemma existsb_done_status_items (its : list Item) :
  existsb is_done_item (status_items its) = existsb is_done_item its.
Proof.
  induction its as [|item its IH]; [reflexivity|].
  unfold status_items in *. cbn [List.filter existsb].
  unfold is_done_item at 2.
  destruct (String.eqb (field item) "status") eqn:Hf.
  - cbn [existsb]. unfold is_done_item at 1. rewrite Hf, IH. reflexivity.
  - cbn [andb orb]. exact IH.
Qed.

Lemma completion_date_status_only (issue : Issue) :
  get_issue_completion_date (status_only issue)
  = get_issue_completion_date issue.
Proof.
  unfold get_issue_completion_date, status_only. cbn [histories].
  induction (histories issue) as [|h hs IH]; [reflexivity|].
  cbn [map get_issue_completion_date_from items created].
  rewrite existsb_done_status_items, IH. reflexivity.
Qed.

(** X11: the four calculators read nothing but the status changes: dropping
    from every history entry the items of other fields (assignee, priority,
    labels and so on) changes neither the time in progress, nor the time in
    review, nor the lead time, nor the completion date, and an entry left
    without items still has its timestamp parsed. *)
Theorem calculators_read_status_items_only (now : datetime) (issue : Issue) :
  calculate_time_in_progress now (status_only issue)
  = calculate_time_in_progress now issue
  /\ calculate_time_in_review now (status_only issue)
     = calculate_time_in_review now issue
  /\ calculate_lead_time (status_only issue) = calculate_lead_time issue
  /\ get_issue_completion_date (status_only issue)
     = get_issue_completion_date issue.
Proof.
  split; [|split; [|split]].
  - unfold calculate_time_in_progress. rewrite acc_total_status_only.
    reflexivity.
  - unfold calculate_time_in_review. rewrite acc_total_status_only.
    reflexivity.
  - unfold calculate_lead_time. cbn [status_only fields_created].
    destruct (parse_jira_datetime (fields_created issue)) as [c|e];
      [|reflexivity].
    cbn [mbind result_bind]. rewrite !lead_time_histories_completion.
    pose proof (completion_date_status_only issue) as Hc.
    unfold get_issue_completion_date in Hc. rewrite Hc. reflexivity.
  - apply completion_date_status_only.
Qed.

(** X12: an issue whose changelog holds no event into "In Progress" has
    spent zero hours in progress, and one with no event into "In Review"
    zero time in review, whatever the clock reads and whatever exits from
    the status the changelog records; this covers the empty changelog. *)
Theorem never_entered_is_zero (now : datetime) (issue : Issue) :
  Forall (fun h => exists t, parse_jira_datetime (created h) = Ok t)
    (histories issue) ->
  (never_enters is_in_progress issue ->
     exists p, calculate_time_in_progress now issue = Ok p /\ (p == 0)%Q)
  /\ (never_enters is_in_review issue ->
     exists r, calculate_time_in_review now issue = Ok r /\ (r == 0)%Q).
Proof.
  intros Hparse. split; intros Hnever.
  - unfold calculate_time_in_progress.
    rewrite (acc_total_never_enters _ now issue Hparse Hnever).
    eexists. split; reflexivity.
  - unfold calculate_time_in_review.
    rewrite (acc_total_never_enters _ now issue Hparse Hnever).
    eexists. split; reflexivity.
Qed.

Lemma never_entered_is_zero_witness :
  exists r, calculate_time_in_review (noon_utc 2024 11 1) dst_entered_issue
            = Ok r /\ (r == 0)%Q.
Proof.
  refine (proj2 (never_entered_is_zero (noon_utc 2024 11 1)
                   dst_entered_issue _) _).
  - repeat constructor; eexists; vm_compute; reflexivity.
  - repeat constructor.
Defined.

(** ** One visit *)

Lemma acc_total_one_visit (is_target : option string -> bool)
    (now : datetime) (issue : Issue) (h1 h2 : History) (entry exit : Item)
    (t1 t2 : datetime) :
  histories issue = [h1; h2] ->
  String.ltb (created h2) (created h1) = false ->
  items h1 = [entry] -> items h2 = [exit] ->
  is_entry is_target entry = true -> acts_as_exit is_target exit = true ->
  parse_jira_datetime (created h1) = Ok t1 ->
  parse_jira_datetime (created h2) = Ok t2 ->
  acc_total is_target now issue
  = Ok (0 + Datetime.total_seconds (Datetime.sub t2 t1))%Q.
Proof.
  intros Hhs Horder Hi1 Hi2 Hentry Hexit Ht1 Ht2.
  unfold acc_total, sorted, sorted_by. rewrite Hhs.
  cbn [foldr insert_by]. rewrite Horder.
  cbn [acc_histories]. rewrite Ht1, Ht2, Hi1, Hi2.
  cbn [mbind result_bind foldl].
  apply is_entry_spec in Hentry as [Hf1 Hto1].
  unfold acts_as_exit in Hexit.
  apply andb_true_iff in Hexit as [Hexit Hfrom2].
  apply andb_true_iff in Hexit as [Hf2 Hto2]. apply negb_true_iff in Hto2.
  unfold acc_item. rewrite Hf1, Hto1, Hf2, Hto2, Hfrom2.
  reflexivity.
Qed.

(** X13: an issue with one clean visit, an entry into the status followed,
    in the order of the timestamp texts, by the exit from it, has spent in
    progress exactly the time between the two timestamps, in hours, and in
    review the same time in hours or, below one hour, in minutes; the clock
    is not read. *)
Theorem one_visit_is_exit_minus_entry (now : datetime) (issue : Issue)
    (h1 h2 : History) (entry exit : Item) (t1 t2 : datetime) :
  histories issue = [h1; h2] ->
  String.ltb (created h2) (created h1) = false ->
  items h1 = [entry] -> items h2 = [exit] ->
  parse_jira_datetime (created h1) = Ok t1 ->
  parse_jira_datetime (created h2) = Ok t2 ->
  let visit := Datetime.total_seconds (Datetime.sub t2 t1) in
  (is_entry is_in_progress entry = true ->
   acts_as_exit is_in_progress exit = true ->
   exists p, calculate_time_in_progress now issue = Ok p
             /\ (p == visit / 3600)%Q)
  /\ (is_entry is_in_review entry = true ->
      acts_as_exit is_in_review exit = true ->
      exists r, calculate_time_in_review now issue = Ok r
                /\ ((3600 <= visit)%Q -> (r == visit / 3600)%Q)
                /\ ((visit < 3600)%Q -> (r == visit / 60)%Q)).
Proof.
  intros Hhs Horder Hi1 Hi2 Ht1 Ht2 visit. split; intros Hentry Hexit.
  - unfold calculate_time_in_progress.
    rewrite (acc_total_one_visit _ now issue h1 h2 entry exit t1 t2)
      by assumption.
    cbn [mbind result_bind]. eexists. split; [reflexivity|].
    fold visit. rewrite Qplus_0_l. reflexivity.
  - unfold calculate_time_in_review.
    rewrite (acc_total_one_visit _ now issue h1 h2 entry exit t1 t2)
      by assumption.
    cbn [mbind result_bind]. fold visit.
    assert (0 + visit == visit)%Q as Hz by apply Qplus_0_l.
    destruct (Qle_bool 3600 (0 + visit)) eqn:Hle.
    + eexists. split; [reflexivity|]. split; intros Hv.
      * rewrite Hz. reflexivity.
      * apply Qle_bool_iff in Hle. rewrite Hz in Hle.
        exfalso. apply (Qlt_not_le _ _ Hv Hle).
    + eexists. split; [reflexivity|]. split; intros Hv.
      * assert (Qle_bool 3600 (0 + visit) = true) as Hle'
          by (apply Qle_bool_iff; rewrite Hz; exact Hv).
        congruence.
      * rewrite Hz. reflexivity.
Qed.

Lemma one_visit_is_exit_minus_entry_witness :
  exists p,
    calculate_time_in_progress (noon_utc 2024 11 1) half_hour_issue = Ok p
    /\ (p == Datetime.total_seconds
               (Datetime.sub (utc 2024 1 2 0 30) (utc 2024 1 2 0 0)) / 3600)%Q.
Proof.
  refine (proj1 (one_visit_is_exit_minus_entry (noon_utc 2024 11 1)
                   half_hour_issue half_hour_entry half_hour_exit
                   (status_change None (Some "In Progress"))
                   (status_change (Some "In Progress") (Some "Done"))
                   (utc 2024 1 2 0 0) (utc 2024 1 2 0 30)
                   eq_refl _ eq_refl eq_refl _ _) _ _).
  - reflexivity.
  - vm_compute. reflexivity.
  - vm_compute. reflexivity.
  - reflexivity.
  - reflexivity.
Defined.

(** ** The unit switch of the time in review *)

(** X14: the time in review is not monotone in the clock: when the
    accumulated seconds pass from below 3600 to 3600 or more, and stay
    below sixty times the earlier total, the later result, in hours, is
    smaller than the earlier one, in minutes. *)
Theorem review_result_drops_at_one_hour (now1 now2 : datetime)
    (changelog : Issue) (total1 total2 : Q) :
  acc_total is_in_review now1 changelog = Ok total1 ->
  acc_total is_in_review now2 changelog = Ok total2 ->
  (total1 < 3600)%Q -> (3600 <= total2)%Q -> (total2 < 60 * total1)%Q ->
  exists r1 r2,
    calculate_time_in_review now1 changelog = Ok r1
    /\ calculate_time_in_review now2 changelog = Ok r2
    /\ (total1 < total2)%Q /\ (r2 < r1)%Q.
Proof.
  intros H1 H2 Hlt Hge Hclose. unfold calculate_time_in_review.
  rewrite H1, H2. cbn [mbind result_bind].
  assert (Qle_bool 3600 total1 = false) as ->.
  { destruct (Qle_bool 3600 total1) eqn:Hle; [|reflexivity].
    apply Qle_bool_iff in Hle. exfalso. apply (Qlt_not_le _ _ Hlt Hle). }
  assert (Qle_bool 3600 total2 = true) as -> by (apply Qle_bool_iff; exact Hge).
  do 2 eexists. split; [reflexivity|]. split; [reflexivity|].
  split; [lra|].
  apply Qlt_shift_div_r; [reflexivity|].
  assert (total1 / 60 * 3600 == 60 * total1)%Q as -> by field.
  exact Hclose.
Qed.

Lemma review_result_drops_at_one_hour_witness :
  exists r1 r2,
    calculate_time_in_review (utc 2024 1 3 0 59) open_review_issue = Ok r1
    /\ calculate_time_in_review (utc 2024 1 3 1 0) open_review_issue = Ok r2
    /\ (0 + (3540000000 # 1000000) < 0 + (3600000000 # 1000000))%Q
    /\ (r2 < r1)%Q.
Proof.
  apply (review_result_drops_at_one_hour (utc 2024 1 3 0 59)
           (utc 2024 1 3 1 0) open_review_issue
           (0 + (3540000000 # 1000000)) (0 + (3600000000 # 1000000))).
  - vm_compute. reflexivity.
  - vm_compute. reflexivity.
  - reflexivity.
  - vm_compute. discriminate.
  - reflexivity.
Defined.

(** ** The order of the histories in the input *)

Lemma NoDup_map_inj_in {A B} (f : A -> B) (l : list A) (x y : A) :
  NoDup (map f l) -> In x l -> In y l -> f x = f y -> x = y.
Proof.
  induction l as [|a l IH]; intros Hnd Hx Hy Hxy; [destruct Hx|].
  cbn [map] in Hnd. apply NoDup_cons in Hnd as [Ha Hnd].
  destruct Hx as [<-|Hx], Hy as [<-|Hy]; try reflexivity.
  - exfalso. apply Ha. rewrite Hxy. apply list_elem_of_In.
    apply in_map. exact Hy.
  - exfalso. apply Ha. rewrite <- Hxy. apply list_elem_of_In.
    apply in_map. exact Hx.
  - apply IH; assumption.
Qed.

Lemma str_ltb_false_both (a b : string) :
  String.ltb a b = false -> String.ltb b a = false -> a = b.
Proof.
  intros Hab Hba. destruct (string_dec a b) as [Heq|Hne]; [exact Heq|].
  apply (str_ltb_total _ _ Hab) in Hne. congruence.
Qed.

(* With timestamps that differ as texts, the sorted list does not depend on
   the order of the input. *)
Lemma sorted_created_perm (hs1 hs2 : list History) :
  Permutation hs1 hs2 -> NoDup (map created hs1) ->
  sorted created hs1 = sorted created hs2.
Proof.
  intros Hperm Hnd.
  destruct (sorted_ascending created hs1) as [Hp1 Hs1].
  destruct (sorted_ascending created hs2) as [Hp2 Hs2].
  apply (StronglySorted_unique_strong (key_le String.ltb created));
    [|exact Hs1 | exact Hs2 | rewrite Hp1, Hp2; exact Hperm].
  intros x1 x2 Hx1 Hx2 H12 H21. unfold key_le in H12, H21.
  apply (NoDup_map_inj_in created hs1); try exact Hnd.
  - apply list_elem_of_In. rewrite <- Hp1. exact Hx1.
  - apply list_elem_of_In. rewrite Hperm, <- Hp2. exact Hx2.
  - apply str_ltb_false_both; assumption.
Qed.

(** X15: when the timestamp texts of the history entries of an issue are
    pairwise different, the time in progress and the time in review do not
    depend on the order in which the entries are listed: any two issues
    whose entries are a rearrangement of each other get the same results. *)
Theorem accumulators_ignore_input_order (now : datetime)
    (issue1 issue2 : Issue) :
  Permutation (histories issue1) (histories issue2) ->
  NoDup (map created (histories issue1)) ->
  calculate_time_in_progress now issue1 = calculate_time_in_progress now issue2
  /\ calculate_time_in_review now issue1 = calculate_time_in_review now issue2.
Proof.
  intros Hperm Hnd.
  unfold calculate_time_in_progress, calculate_time_in_review, acc_total.
  rewrite (sorted_created_perm _ _ Hperm Hnd). split; reflexivity.
Qed.

Lemma accumulators_ignore_input_order_witness :
  calculate_time_in_progress (noon_utc 2024 11 1) half_hour_issue
  = calculate_time_in_progress (noon_utc 2024 11 1)
      {| key := "K-5"; fields_created := "";
         histories := [half_hour_exit; half_hour_entry] |}.
Proof.
  refine (proj1 (accumulators_ignore_input_order (noon_utc 2024 11 1)
                   half_hour_issue
                   {| key := "K-5"; fields_created := "";
                      histories := [half_hour_exit; half_hour_entry] |}
                   _ _)).
  - apply perm_swap.
  - cbn. constructor.
    + intros H. apply list_elem_of_singleton in H. discriminate H.
    + constructor; [apply not_elem_of_nil | constructor].
Defined.

(** ** Intervals that are closed *)

(** X16: when, in the order in which the code processes them, the last
    event of the changelog that enters or leaves "In Progress" is an exit,
    the time in progress does not depend on the clock: two calls at
    different instants return the same value. *)
Theorem closed_interval_ignores_clock (now1 now2 t : datetime)
    (changelog : Issue) (pre post : list (datetime * list Item))
    (its_pre its_post : list Item) (exit : Item) :
  parse_histories (sorted created (histories changelog))
  = Ok (pre ++ (t, its_pre ++ exit :: its_post) :: post) ->
  acts_as_exit is_in_progress exit = true ->
  no_entry is_in_progress its_post ->
  Forall (fun ev => no_entry is_in_progress (snd ev)) post ->
  calculate_time_in_progress now1 changelog
  = calculate_time_in_progress now2 changelog.
Proof.
  intros Hparse Hexit Hits Hpost.
  unfold calculate_time_in_progress, acc_total.
  rewrite acc_histories_events, Hparse. cbn [mbind result_bind].
  rewrite acc_events_app, acc_events_cons, foldl_app. cbn [foldl].
  set (st := foldl (acc_item is_in_progress t)
               (acc_events is_in_progress pre (None, 0%Q)) its_pre).
  pose proof (acc_item_exit_leaves is_in_progress t st exit Hexit) as Hout.
  destruct (acc_item is_in_progress t st exit) as [start total].
  cbn [fst] in Hout. subst start.
  rewrite acc_items_no_entry_outside by exact Hits.
  rewrite acc_events_no_entry_outside by exact Hpost.
  reflexivity.
Qed.

Lemma closed_interval_ignores_clock_witness :
  calculate_time_in_progress (noon_utc 2024 11 1) half_hour_issue
  = calculate_time_in_progress (noon_utc 2025 11 1) half_hour_issue.
Proof.
  apply (closed_interval_ignores_clock (noon_utc 2024 11 1) (noon_utc 2025 11 1)
           (utc 2024 1 2 0 30) half_hour_issue
           [(utc 2024 1 2 0 0, [status_change None (Some "In Progress")])] []
           [] [] (status_change (Some "In Progress") (Some "Done"))).
  - vm_compute. reflexivity.
  - reflexivity.
  - constructor.
  - constructor.
Defined.

(** ** Records without values *)

Lemma valid_values_skip (get : Metrics -> option Q) (m0 : Metrics)
    (l : list Metrics) :
  truthy (get m0) = false ->
  valid_values get (m0 :: l) = valid_values get l.
Proof.
  intros H0. unfold valid_values. cbn -[truthy]. rewrite H0. reflexivity.
Qed.

(** X17: a ticket whose three values are all zero or missing changes
    nothing but the count: the averages are taken over the non-zero values
    only, so the summary of a non-empty list with such a ticket added has
    the averages of the list and one ticket more. *)
Theorem empty_record_only_counts (m0 : Metrics) (l : list Metrics)
    (a : Averages) :
  truthy (time_in_progress_hours m0) = false ->
  truthy (time_in_review_hours m0) = false ->
  truthy (lead_time_hours m0) = false ->
  l <> [] ->
  calculate_averages l = Ok a ->
  calculate_averages (m0 :: l)
  = Ok (Build_Averages (S (ticket_count a))
          (avg_time_in_progress_hours a) (avg_time_in_review_hours a)
          (avg_lead_time_hours a) (avg_time_in_progress_days a)
          (avg_time_in_review_days a) (avg_lead_time_days a)).
Proof.
  intros Hp Hr Hl Hne Ha. destruct l as [|m l]; [contradiction|].
  unfold calculate_averages in Ha |- *. cbv zeta in Ha |- *.
  rewrite (valid_values_skip time_in_progress_hours m0 (m :: l) Hp),
    (valid_values_skip time_in_review_hours m0 (m :: l) Hr),
    (valid_values_skip lead_time_hours m0 (m :: l) Hl).
  apply bind_Ok_inv in Ha as (p & -> & Ha).
  apply bind_Ok_inv in Ha as (r & -> & Ha).
  apply bind_Ok_inv in Ha as (d & -> & Ha).
  injection Ha as <-. reflexivity.
Qed.

Lemma empty_record_only_counts_witness :
  exists a,
    calculate_averages
      [ Build_Metrics "K-0" (Some 0%Q) None (Some 0%Q);
        Build_Metrics "K-1" (Some 24%Q) (Some 48%Q) (Some 96%Q) ] = Ok a
    /\ ticket_count a = 2%nat
    /\ (avg_time_in_progress_hours a == 24)%Q.
Proof.
  eexists. split.
  - apply (empty_record_only_counts
             (Build_Metrics "K-0" (Some 0%Q) None (Some 0%Q))
             [Build_Metrics "K-1" (Some 24%Q) (Some 48%Q) (Some 96%Q)]).
    + reflexivity.
    + reflexivity.
    + reflexivity.
    + discriminate.
    + vm_compute. reflexivity.
  - split; reflexivity.
Defined.

(** ** round_metrics *)

Lemma round2_idem (q : Q) : round2 (round2 q) = round2 q.
Proof.
  unfold round2 at 1 3. f_equal.
  set (n := round_half_even (q * 100)).
  unfold round_half_even. unfold round2. fold n.
  assert (Qfloor ((n # 100) * 100) = n) as Hfloor.
  { unfold Qfloor, Qmult. cbn [Qnum Qden].
    change (Z.pos (100 * 1)) with 100. apply Z.div_mul. discriminate. }
  rewrite Hfloor.
  assert (((n # 100) * 100 - inject_Z n ?= 1 # 2)%Q = Lt) as ->;
    [|reflexivity].
  apply -> Qlt_alt. unfold Qlt, Qminus, Qplus, Qmult, Qopp, inject_Z.
  cbn [Qnum Qden]. lia.
Qed.

Lemma round_value_idem (value : pyval) :
  round_value (round_value value) = round_value value.
Proof.
  destruct value as [q| | |]; cbn [round_value]; try reflexivity.
  rewrite round2_idem. reflexivity.
Qed.

(** X18: [round_metrics] keeps the keys of the dictionary, rounds each
    float to two decimals, leaves every value that is not a float as it is
    (the integer ticket count, the period string, None), and rounding a
    dictionary that is already rounded changes nothing. *)
Theorem round_metrics_rounds_floats_only (metrics_dict : gmap string pyval) :
  dom (round_metrics metrics_dict) = dom metrics_dict
  /\ (forall k q, metrics_dict !! k = Some (PyFloat q) ->
        round_metrics metrics_dict !! k = Some (PyFloat (round2 q)))
  /\ (forall k value, metrics_dict !! k = Some value ->
        (forall q, value <> PyFloat q) ->
        round_metrics metrics_dict !! k = Some value)
  /\ round_metrics (round_metrics metrics_dict) = round_metrics metrics_dict.
Proof.
  unfold round_metrics. split; [apply dom_fmap_L|]. split; [|split].
  - intros k q Hk. rewrite lookup_fmap, Hk. reflexivity.
  - intros k value Hk Hnot. rewrite lookup_fmap, Hk.
    destruct value as [q| | |]; try reflexivity.
    destruct (Hnot q eq_refl).
  - rewrite <- map_fmap_compose. apply map_fmap_ext.
    intros k value _. apply round_value_idem.
Qed.

(** ** Period keys and the calendar *)

Lemma yearly_key (a : datetime) :
  format_period_key a "yearly" = PyStr.zfill 4 (Datetime.year a).
Proof. reflexivity. Qed.

Lemma monthly_key (a : datetime) :
  format_period_key a "monthly"
  = String.append (PyStr.zfill 4 (Datetime.year a))
      (String "-" (PyStr.zfill 2 (Datetime.month a))).
Proof. reflexivity. Qed.

Lemma daily_key (a : datetime) :
  format_period_key a "daily"
  = String.append (PyStr.zfill 4 (Datetime.year a))
      (String "-"
         (String.append (PyStr.zfill 2 (Datetime.month a))
            (String "-" (PyStr.zfill 2 (Datetime.day a))))).
Proof. reflexivity. Qed.

Lemma ascii_compare_refl (c : ascii) : Ascii.compare c c = Eq.
Proof.
  destruct (Ascii.compare c c) eqn:Hc; [reflexivity| |];
    pose proof (Ascii.compare_antisym c c) as Ha; rewrite Hc in Ha;
    discriminate.
Qed.

Lemma compare_app_same (a x y : string) :
  String.compare (String.append a x) (String.append a y)
  = String.compare x y.
Proof.
  induction a as [|c a IH]; [reflexivity|].
  simpl. rewrite ascii_compare_refl. exact IH.
Qed.

Lemma compare_app_lt (a b x y : string) :
  String.length a = String.length b ->
  String.compare a b = Lt ->
  String.compare (String.append a x) (String.append b y) = Lt.
Proof.
  revert b. induction a as [|c a IH]; intros [|c' b] Hlen Hlt;
    try discriminate.
  simpl in Hlt |- *.
  destruct (Ascii.compare c c'); try congruence.
  apply IH; [|exact Hlt]. simpl in Hlen. congruence.
Qed.

Lemma ltb_app_same (a x y : string) :
  String.ltb (String.append a x) (String.append a y) = String.ltb x y.
Proof. unfold String.ltb. rewrite compare_app_same. reflexivity. Qed.

Lemma ltb_app_lt (a b x y : string) :
  String.length a = String.length b ->
  String.ltb a b = true ->
  String.ltb (String.append a x) (String.append b y) = true.
Proof.
  unfold String.ltb. intros Hlen Hlt.
  destruct (String.compare a b) eqn:Hc; try discriminate.
  rewrite (compare_app_lt a b x y Hlen Hc). reflexivity.
Qed.

Lemma ltb_cons_same (c : ascii) (x y : string) :
  String.ltb (String c x) (String c y) = String.ltb x y.
Proof. exact (ltb_app_same (String c EmptyString) x y). Qed.

Lemma str_ltb_irrefl (a : string) : String.ltb a a = false.
Proof.
  unfold String.ltb. induction a as [|c a IH]; [reflexivity|].
  simpl. rewrite ascii_compare_refl. exact IH.
Qed.

Lemma str_ltb_trans (a b c : string) :
  String.ltb a b = true -> String.ltb b c = true -> String.ltb a c = true.
Proof.
  rewrite !str_ltb_lt. apply String_as_OT.lt_trans.
Qed.

(* The zero-padded numerals of a range of numbers, checked one by one:
   each is below the next and has the full width. *)
Section zfill_order.
Variables (w : nat) (lo cnt : Z).
Hypothesis Hcheck :
  forallb (fun n =>
             String.ltb (PyStr.zfill w n) (PyStr.zfill w (n + 1))
             && Nat.eqb (String.length (PyStr.zfill w n)) w
             && Nat.eqb (String.length (PyStr.zfill w (n + 1))) w)
          (seqZ lo cnt) = true.

Lemma zfill_step (n : Z) :
  lo <= n < lo + cnt ->
  String.ltb (PyStr.zfill w n) (PyStr.zfill w (n + 1)) = true
  /\ String.length (PyStr.zfill w n) = w
  /\ String.length (PyStr.zfill w (n + 1)) = w.
Proof.
  intros Hn. pose proof Hcheck as H.
  rewrite List.forallb_forall in H. specialize (H n).
  rewrite <- list_elem_of_In, elem_of_seqZ in H. specialize (H Hn).
  apply andb_prop in H as [H H3]. apply andb_prop in H as [H1 H2].
  apply Nat.eqb_eq in H2, H3. auto.
Qed.

Lemma zfill_lt_nat (k : nat) (n : Z) :
  lo <= n -> n + 1 + Z.of_nat k <= lo + cnt ->
  String.ltb (PyStr.zfill w n) (PyStr.zfill w (n + 1 + Z.of_nat k)) = true.
Proof.
  induction k as [|k IH]; intros Hlo Hhi.
  - replace (n + 1 + Z.of_nat 0) with (n + 1) by lia. apply zfill_step. lia.
  - apply (str_ltb_trans _ (PyStr.zfill w (n + 1 + Z.of_nat k))).
    + apply IH; lia.
    + replace (n + 1 + Z.of_nat (S k)) with (n + 1 + Z.of_nat k + 1) by lia.
      apply zfill_step. lia.
Qed.

Lemma zfill_lt (a b : Z) :
  lo <= a -> a < b -> b <= lo + cnt ->
  String.ltb (PyStr.zfill w a) (PyStr.zfill w b) = true.
Proof.
  intros Hlo Hab Hhi.
  replace b with (a + 1 + Z.of_nat (Z.to_nat (b - a - 1))) by lia.
  apply zfill_lt_nat; lia.
Qed.

Lemma zfill_length (a : Z) :
  0 < cnt -> lo <= a <= lo + cnt ->
  String.length (PyStr.zfill w a) = w.
Proof.
  intros Hcnt Ha. destruct (Z.eq_dec a lo) as [->|Hne].
  - apply zfill_step. lia.
  - replace a with (a - 1 + 1) by lia. apply zfill_step. lia.
Qed.

End zfill_order.

Lemma year_numerals_checked :
  forallb (fun n =>
             String.ltb (PyStr.zfill 4 n) (PyStr.zfill 4 (n + 1))
             && Nat.eqb (String.length (PyStr.zfill 4 n)) 4
             && Nat.eqb (String.length (PyStr.zfill 4 (n + 1))) 4)
          (seqZ 1000 8999) = true.
Proof. vm_compute. reflexivity. Qed.

Lemma day_numerals_checked :
  forallb (fun n =>
             String.ltb (PyStr.zfill 2 n) (PyStr.zfill 2 (n + 1))
             && Nat.eqb (String.length (PyStr.zfill 2 n)) 2
             && Nat.eqb (String.length (PyStr.zfill 2 (n + 1))) 2)
          (seqZ 1 30) = true.
Proof. vm_compute. reflexivity. Qed.

Lemma year_numeral_lt (a b : Z) :
  1000 <= a -> a < b -> b <= 9999 ->
  String.ltb (PyStr.zfill 4 a) (PyStr.zfill 4 b) = true.
Proof.
  intros. apply (zfill_lt 4 1000 8999 year_numerals_checked); lia.
Qed.

Lemma year_numeral_length (a : Z) :
  1000 <= a <= 9999 -> String.length (PyStr.zfill 4 a) = 4%nat.
Proof.
  intros. apply (zfill_length 4 1000 8999 year_numerals_checked); lia.
Qed.

Lemma day_numeral_lt (a b : Z) :
  1 <= a -> a < b -> b <= 31 ->
  String.ltb (PyStr.zfill 2 a) (PyStr.zfill 2 b) = true.
Proof.
  intros. apply (zfill_lt 2 1 30 day_numerals_checked); lia.
Qed.

Lemma day_numeral_length (a : Z) :
  1 <= a <= 31 -> String.length (PyStr.zfill 2 a) = 2%nat.
Proof.
  intros. apply (zfill_length 2 1 30 day_numerals_checked); lia.
Qed.

Lemma yearly_key_lt (a b : datetime) :
  calendar_fields a -> calendar_fields b ->
  Datetime.year a < Datetime.year b ->
  String.ltb (format_period_key a "yearly") (format_period_key b "yearly")
  = true.
Proof.
  intros (Hya & _) (Hyb & _) Hlt. rewrite !yearly_key.
  apply year_numeral_lt; lia.
Qed.

Lemma monthly_key_lt (a b : datetime) :
  calendar_fields a -> calendar_fields b -> month_lt a b ->
  String.ltb (format_period_key a "monthly") (format_period_key b "monthly")
  = true.
Proof.
  intros (Hya & Hma & _) (Hyb & Hmb & _) [Hlt|[Hy Hlt]]; rewrite !monthly_key.
  - apply ltb_app_lt.
    + rewrite !year_numeral_length by lia. reflexivity.
    + apply year_numeral_lt; lia.
  - rewrite Hy, ltb_app_same, ltb_cons_same. apply day_numeral_lt; lia.
Qed.

Lemma daily_key_lt (a b : datetime) :
  calendar_fields a -> calendar_fields b -> date_lt a b ->
  String.ltb (format_period_key a "daily") (format_period_key b "daily")
  = true.
Proof.
  intros (Hya & Hma & Hda) (Hyb & Hmb & Hdb) [Hlt|[Hy [Hlt|[Hm Hlt]]]];
    rewrite !daily_key.
  - apply ltb_app_lt.
    + rewrite !year_numeral_length by lia. reflexivity.
    + apply year_numeral_lt; lia.
  - rewrite Hy, ltb_app_same, ltb_cons_same. apply ltb_app_lt.
    + rewrite !day_numeral_length by lia. reflexivity.
    + apply day_numeral_lt; lia.
  - rewrite Hy, Hm, ltb_app_same, ltb_cons_same, ltb_app_same, ltb_cons_same.
    apply day_numeral_lt; lia.
Qed.

(* A key that grows strictly with the period tells the periods apart and
   orders them. *)
Lemma strict_key_reflects (A : Type) (lt : A -> A -> Prop) (same : A -> A -> Prop)
    (K : A -> string) (a b : A) :
  (lt a b -> String.ltb (K a) (K b) = true) ->
  (lt b a -> String.ltb (K b) (K a) = true) ->
  (same a b -> K a = K b) ->
  lt a b \/ same a b \/ lt b a ->
  (lt a b <-> str_lt (K a) (K b)) /\ (same a b <-> K a = K b).
Proof.
  intros Hab Hba Hsame Htri. unfold str_lt. split; split; auto.
  - intros Hlt. destruct Htri as [H|[H|H]]; [exact H| |].
    + rewrite (Hsame H), str_ltb_irrefl in Hlt. discriminate.
    + pose proof (str_ltb_trans _ _ _ Hlt (Hba H)) as Hc.
      rewrite str_ltb_irrefl in Hc. discriminate.
  - intros Heq. destruct Htri as [H|[H|H]]; [|exact H|].
    + apply Hab in H. rewrite Heq, str_ltb_irrefl in H. discriminate.
    + apply Hba in H. rewrite Heq, str_ltb_irrefl in H. discriminate.
Qed.

(** X19: for completion dates with a year of four digits, the period keys
    compare as text exactly as the periods follow each other in the
    calendar, so the yearly, monthly and daily lists of the aggregator are
    in chronological order; and two dates share a yearly, monthly or daily
    bucket exactly when they have the same year, the same year and month,
    or the same year, month and day. *)
Theorem period_keys_order_as_the_calendar (a b : datetime) :
  calendar_fields a -> calendar_fields b ->
  ((Datetime.year a < Datetime.year b
    <-> str_lt (format_period_key a "yearly") (format_period_key b "yearly"))
   /\ (Datetime.year a = Datetime.year b
       <-> format_period_key a "yearly" = format_period_key b "yearly"))
  /\ ((month_lt a b
       <-> str_lt (format_period_key a "monthly")
                  (format_period_key b "monthly"))
      /\ (Datetime.year a = Datetime.year b
          /\ Datetime.month a = Datetime.month b
          <-> format_period_key a "monthly" = format_period_key b "monthly"))
  /\ ((date_lt a b
       <-> str_lt (format_period_key a "daily") (format_period_key b "daily"))
      /\ (Datetime.year a = Datetime.year b
          /\ Datetime.month a = Datetime.month b
          /\ Datetime.day a = Datetime.day b
          <-> format_period_key a "daily" = format_period_key b "daily")).
Proof.
  intros Ha Hb. split; [|split].
  - apply (strict_key_reflects datetime
             (fun x y => Datetime.year x < Datetime.year y)
             (fun x y => Datetime.year x = Datetime.year y)
             (fun x => format_period_key x "yearly")).
    + apply yearly_key_lt; assumption.
    + apply yearly_key_lt; assumption.
    + intros H. rewrite !yearly_key, H. reflexivity.
    + lia.
  - apply (strict_key_reflects datetime month_lt
             (fun x y => Datetime.year x = Datetime.year y
                         /\ Datetime.month x = Datetime.month y)
             (fun x => format_period_key x "monthly")).
    + apply monthly_key_lt; assumption.
    + apply monthly_key_lt; assumption.
    + intros [H1 H2]. rewrite !monthly_key, H1, H2. reflexivity.
    + unfold month_lt. lia.
  - apply (strict_key_reflects datetime date_lt
             (fun x y => Datetime.year x = Datetime.year y
                         /\ Datetime.month x = Datetime.month y
                         /\ Datetime.day x = Datetime.day y)
             (fun x => format_period_key x "daily")).
    + apply daily_key_lt; assumption.
    + apply daily_key_lt; assumption.
    + intros (H1 & H2 & H3). rewrite !daily_key, H1, H2, H3. reflexivity.
    + unfold date_lt. lia.
Qed.

Lemma period_keys_order_as_the_calendar_witness :
  str_lt (format_period_key (utc 2023 12 31 23 0) "daily")
         (format_period_key (utc 2024 1 1 0 0) "daily")
  /\ format_period_key (utc 2024 1 5 18 0) "monthly"
     = format_period_key (utc 2024 1 31 9 0) "monthly".
Proof.
  split.
  - apply (period_keys_order_as_the_calendar
             (utc 2023 12 31 23 0) (utc 2024 1 1 0 0)).
    + unfold calendar_fields. simpl. lia.
    + unfold calendar_fields. simpl. lia.
    + unfold date_lt. simpl. lia.
  - apply (period_keys_order_as_the_calendar
             (utc 2024 1 5 18 0) (utc 2024 1 31 9 0)).
    + unfold calendar_fields. simpl. lia.
    + unfold calendar_fields. simpl. lia.
    + split; reflexivity.
Defined.

(** ** The sign of the results *)

Lemma acc_events_inv_start (is_target : option string -> bool)
    (evs : list (datetime * list Item)) (bound : Z) :
  in_time_order evs ->
  Forall (fun ev => Datetime.instant (fst ev) <= bound) evs ->
  acc_inv bound (acc_events is_target evs (None, 0%Q)).
Proof.
  intros Hord Hle. destruct evs as [|[t its] evs].
  - split; cbn; [lra|discriminate].
  - pose proof Hord as Hfirst. apply StronglySorted_inv in Hfirst as [_ Hfirst].
    apply Forall_cons in Hle as [Ht Hle]. cbn [fst] in Ht.
    apply (acc_events_inv is_target _ (Datetime.instant t) bound);
      [exact Hord | | exact Ht |].
    + constructor; [cbn [fst]; lia|].
      rewrite Forall_forall in Hle, Hfirst. apply Forall_forall.
      intros ev Hev. specialize (Hle ev Hev). specialize (Hfirst ev Hev).
      unfold instant_le in Hfirst. cbn [fst] in Hfirst. lia.
    + split; cbn; [lra|discriminate].
Qed.

Lemma close_interval_nonneg (now : datetime) (st : acc_state) :
  acc_inv (Datetime.instant now) st -> (0 <= close_interval now st)%Q.
Proof.
  intros [Htot Hstart]. unfold close_interval.
  destruct (fst st) as [s|]; [|exact Htot].
  specialize (Hstart s eq_refl).
  assert (0 <= Datetime.total_seconds (Datetime.sub now s))%Q
    by (apply total_seconds_nonneg; unfold Datetime.sub; lia).
  lra.
Qed.

Lemma acc_total_nonneg (is_target : option string -> bool) (now : datetime)
    (issue : Issue) :
  Forall (fun h => exists t, parse_jira_datetime (created h) = Ok t
                             /\ Datetime.instant t <= Datetime.instant now)
         (histories issue) ->
  text_order_is_time_order (histories issue) ->
  exists total,
    acc_total is_target now issue = Ok total /\ (0 <= total)%Q.
Proof.
  intros Hall Hagree.
  assert (Forall (fun h => exists t, parse_jira_datetime (created h) = Ok t)
            (histories issue)) as Hparse.
  { eapply Forall_impl; [exact Hall|]. intros h (t & Ht & _). eauto. }
  apply parse_histories_Ok in Hparse.
  rewrite (acc_total_chronological_agree is_target now issue _ Hparse Hagree).
  unfold acc_total_chronological. rewrite Hparse. cbn [mbind result_bind].
  eexists. split; [reflexivity|].
  apply close_interval_nonneg, acc_events_inv_start.
  - apply chronological_in_time_order.
  - unfold chronological.
    rewrite (sorted_by_perm Z.ltb (fun ev => Datetime.instant (fst ev))).
    apply Forall_map. eapply Forall_impl; [exact Hall|].
    intros h (t & Ht & Hle). unfold parsed_event. rewrite Ht. exact Hle.
Qed.

(** X20: when the timestamp texts of the history entries compare as their
    instants do and the clock is not before any of them, neither the time
    in progress nor the time in review is negative. *)
Theorem times_are_not_negative_in_time_order (now : datetime) (issue : Issue) :
  Forall (fun h => exists t, parse_jira_datetime (created h) = Ok t
                             /\ Datetime.instant t <= Datetime.instant now)
         (histories issue) ->
  text_order_is_time_order (histories issue) ->
  exists p r,
    calculate_time_in_progress now issue = Ok p
    /\ calculate_time_in_review now issue = Ok r
    /\ (0 <= p)%Q /\ (0 <= r)%Q.
Proof.
  intros Hall Hagree.
  destruct (acc_total_nonneg is_in_progress now issue Hall Hagree)
    as (tp & Hp & Hp0).
  destruct (acc_total_nonneg is_in_review now issue Hall Hagree)
    as (tr & Hr & Hr0).
  unfold calculate_time_in_progress, calculate_time_in_review.
  rewrite Hp, Hr. cbn [mbind result_bind].
  assert (forall d : Q, (0 < d)%Q -> (0 <= tr / d)%Q) as Hdiv.
  { intros d Hd. apply Qle_shift_div_l; [exact Hd|]. lra. }
  destruct (Qle_bool 3600 tr); eexists; eexists;
    (split; [reflexivity|]); (split; [reflexivity|]);
    (split; [apply Qle_shift_div_l; [reflexivity|lra]|]);
    apply Hdiv; reflexivity.
Qed.

Lemma times_are_not_negative_in_time_order_witness :
  exists p r,
    calculate_time_in_progress (noon_utc 2024 11 1) half_hour_issue = Ok p
    /\ calculate_time_in_review (noon_utc 2024 11 1) half_hour_issue = Ok r
    /\ (0 <= p)%Q /\ (0 <= r)%Q.
Proof.
  apply (times_are_not_negative_in_time_order (noon_utc 2024 11 1)
           half_hour_issue).
  - apply List.Forall_cons; [|apply List.Forall_cons; [|apply List.Forall_nil]].
    + exists (utc 2024 1 2 0 0). split; vm_compute; [reflexivity|discriminate].
    + exists (utc 2024 1 2 0 30). split; vm_compute; [reflexivity|discriminate].
  - intros h1 h2 [<-|[<-|[]]] [<-|[<-|[]]]; vm_compute; reflexivity.
Defined.
